(** * Resume Recognition System: a shallow embedding of [main.py]

    The development follows the helper functions of
    [src/Resume_Recognition_System/main.py]:

    - [process_pdf]                   (lines 306-364)
    - [analyze_resume_with_llm]       (lines 261-304)
    - [provide_manual_analysis_tips]  (lines 230-259)
    - [format_analysis_result]        (lines 368-398)
    - [generate_enhanced_pdf_report]  (lines 400-473)
    - the Results page                (lines 639-753)

    Python [str] values are sequences of Unicode code points, exceptions are
    explicit ([outcome]), and everything the program does to the outside
    world (widget calls, HTTP requests, session writes) is appended to a
    trace of [event]s. *)

From Stdlib Require Import List NArith ZArith QArith Bool Lia.
From Stdlib Require Import Strings.String Strings.Ascii Numbers.DecimalString.
Import ListNotations.
Close Scope Q_scope.

(* ================================================================== *)
(** * Python strings *)
(* ================================================================== *)

(** A [str] is a list of code points. *)
Definition pystr := list N.

Module Utf8.

Definition bytes_of_string (s : string) : list N :=
  map N_of_ascii (list_ascii_of_string s).

(** Decoder for the literals of the source file (which is UTF-8). *)
Fixpoint decode (bs : list N) : pystr :=
  match bs with
  | [] => []
  | b0 :: t0 =>
    if (b0 <? 128)%N then b0 :: decode t0
    else match t0 with
    | [] => []
    | b1 :: t1 =>
      if (b0 <? 224)%N then ((b0 - 192) * 64 + (b1 - 128))%N :: decode t1
      else match t1 with
      | [] => []
      | b2 :: t2 =>
        if (b0 <? 240)%N
        then ((b0 - 224) * 4096 + (b1 - 128) * 64 + (b2 - 128))%N :: decode t2
        else match t2 with
        | [] => []
        | b3 :: t3 =>
          ((b0 - 240) * 262144 + (b1 - 128) * 4096
           + (b2 - 128) * 64 + (b3 - 128))%N :: decode t3
        end
      end
    end
  end.

End Utf8.

(** [py "..."] is the [str] written ["..."] in the source. *)
Definition py (s : string) : pystr := Utf8.decode (Utf8.bytes_of_string s).

Definition LF : N := 10%N.
Definition BULLET : N := 8226%N.   (* U+2022 *)

Fixpoint pystr_eqb (a b : pystr) : bool :=
  match a, b with
  | [], [] => true
  | x :: a', y :: b' => (x =? y)%N && pystr_eqb a' b'
  | _, _ => false
  end.

(** [str.isspace] on one code point (the interpreter's whitespace table). *)
Definition isspace (c : N) : bool :=
  ((9 <=? c) && (c <=? 13) || (28 <=? c) && (c <=? 32)
   || (c =? 133) || (c =? 160) || (c =? 5760)
   || (8192 <=? c) && (c <=? 8202)
   || (c =? 8232) || (c =? 8233) || (c =? 8239) || (c =? 8287)
   || (c =? 12288))%N.

Fixpoint lstrip (s : pystr) : pystr :=
  match s with
  | [] => []
  | c :: t => if isspace c then lstrip t else s
  end.

Definition rstrip (s : pystr) : pystr := rev (lstrip (rev s)).

(** [s.strip()] *)
Definition strip (s : pystr) : pystr := rstrip (lstrip s).

(** [s.startswith(p)] *)
Fixpoint startswith (p s : pystr) : bool :=
  match p, s with
  | [], _ => true
  | x :: p', y :: s' => (x =? y)%N && startswith p' s'
  | _ :: _, [] => false
  end.

(** [s.endswith(p)] *)
Definition endswith (p s : pystr) : bool := startswith (rev p) (rev s).

(** [p in s] for two strings. *)
Fixpoint contains (p s : pystr) : bool :=
  startswith p s || match s with [] => false | _ :: t => contains p t end.

(** [s.replace(old, new)] for a non-empty [old]: occurrences are taken left
    to right and do not overlap; [skip] counts the characters of the
    current occurrence that are still to be dropped. *)
Fixpoint replace_from (old new : pystr) (skip : nat) (s : pystr) : pystr :=
  match s with
  | [] => []
  | c :: t =>
    match skip with
    | S k => replace_from old new k t
    | O => if startswith old s
           then new ++ replace_from old new (List.length old - 1) t
           else c :: replace_from old new O t
    end
  end.

(** [s.replace(old, new)]; with an empty [old], [new] goes before every
    character and at the end. *)
Definition replace (old new s : pystr) : pystr :=
  match old with
  | [] => new ++ flat_map (fun c => c :: new) s
  | _ :: _ => replace_from old new 0 s
  end.

Definition cons_head (c : N) (ps : list pystr) : list pystr :=
  match ps with
  | p :: ps' => (c :: p) :: ps'
  | [] => [[c]]
  end.

(** [s.split(sep)] for a non-empty [sep], same scanning as [replace_from]. *)
Fixpoint split_from (sep : pystr) (skip : nat) (s : pystr) : list pystr :=
  match s with
  | [] => [[]]
  | c :: t =>
    match skip with
    | S k => split_from sep k t
    | O => if startswith sep s
           then [] :: split_from sep (List.length sep - 1) t
           else cons_head c (split_from sep O t)
    end
  end.

Definition split (sep s : pystr) : list pystr := split_from sep 0 s.

(** [sep.join(l)] *)
Fixpoint join (sep : pystr) (l : list pystr) : pystr :=
  match l with
  | [] => []
  | [p] => p
  | p :: l' => p ++ sep ++ join sep l'
  end.

(** [s.lower()] on the ASCII letters (only applied to the ASCII keys of
    [analysis_options]). *)
Definition lower (s : pystr) : pystr :=
  map (fun c => if ((65 <=? c) && (c <=? 90))%N then (c + 32)%N else c) s.

(** [str(n)] for an [int]. *)
Definition str_of_Z (z : Z) : pystr :=
  py (NilZero.string_of_int (Z.to_int z)).

(** Truth value of a [str]. *)
Definition truthy (s : pystr) : bool :=
  match s with [] => false | _ :: _ => true end.

(* ================================================================== *)
(** * Exceptions, effects *)
(* ================================================================== *)

(** The exceptions the program can meet; all are subclasses of
    [Exception].  Each carries the text [str(e)] gives. *)
Inductive exn :=
| IndexError (msg : pystr)
| KeyError (repr_key : pystr)
| TypeError (msg : pystr)
| AttributeError (msg : pystr)
| NameError (msg : pystr)
| ImportError (msg : pystr)
| ValueError (msg : pystr)
| LibraryError (msg : pystr).   (* raised inside requests, pdfplumber,
                                   pdf2image, pytesseract or reportlab *)

Definition str_exn (e : exn) : pystr :=
  match e with
  | IndexError m | KeyError m | TypeError m | AttributeError m
  | NameError m | ImportError m | ValueError m | LibraryError m => m
  end.

(** A Python call either returns or raises. *)
Inductive outcome (A : Type) :=
| Returned (a : A)
| Raised (e : exn).
Arguments Returned {A} a.
Arguments Raised {A} e.

Definition obind {A B} (o : outcome A) (k : A -> outcome B) : outcome B :=
  match o with
  | Returned a => k a
  | Raised e => Raised e
  end.

Declare Scope outcome_scope.
Delimit Scope outcome_scope with outcome.
Notation "x <-! o ; k" := (obind o (fun x => k))
  (at level 61, o at next level, right associativity) : outcome_scope.

(** The request [call_groq_api] posts. *)
Record request := {
  req_api_key : pystr;
  req_model : pystr;
  req_messages : list (pystr * pystr);   (* role, content *)
  req_max_tokens : Z
}.

Inductive level := Info | Warning | Error | Success.

(** What the program does to the outside world. *)
Inductive event :=
| St (l : level) (msg : pystr)         (* st.info, st.warning, st.error *)
| Api_call (r : request)               (* requests.post *)
| Set_last_groq_error (v : pystr).     (* st.session_state._last_groq_error = v *)

(** The entries of [st.session_state] the helpers read or write; [None] is
    an absent key. *)
Record session := {
  api_tested : option bool;
  api_working : option bool;
  last_groq_error : option pystr
}.

Record world := {
  w_session : session;
  w_trace : list event
}.

(** Stateful code: a state monad over [world]. *)
Definition M (A : Type) : Type := world -> A * world.

Definition ret {A} (a : A) : M A := fun w => (a, w).

Definition bind {A B} (m : M A) (k : A -> M B) : M B :=
  fun w => let (a, w') := m w in k a w'.

Declare Scope m_scope.
Delimit Scope m_scope with M.
Notation "x <- m ;; k" := (bind m (fun x => k))
  (at level 61, m at next level, right associativity) : m_scope.
Notation "m ;; k" := (bind m (fun _ => k))
  (at level 61, right associativity) : m_scope.

Definition emit (e : event) : M unit :=
  fun w => (tt, {| w_session := w_session w; w_trace := w_trace w ++ [e] |}).

Definition st_info (msg : pystr) : M unit := emit (St Info msg).
Definition st_warning (msg : pystr) : M unit := emit (St Warning msg).
Definition st_error (msg : pystr) : M unit := emit (St Error msg).

Definition get_session : M session := fun w => (w_session w, w).

Definition set_last_groq_error (v : pystr) : M unit :=
  fun w =>
    (tt, {| w_session := {| api_tested := api_tested (w_session w);
                            api_working := api_working (w_session w);
                            last_groq_error := Some v |};
            w_trace := w_trace w ++ [Set_last_groq_error v] |}).

(** [d.get(key, default)] on a session entry. *)
Definition get_default {A} (entry : option A) (default : A) : A :=
  match entry with Some v => v | None => default end.

Definition is_api_call (e : event) : bool :=
  match e with Api_call _ => true | _ => false end.

(** Number of requests posted so far. *)
Definition api_calls (t : list event) : nat :=
  List.length (filter is_api_call t).

(** The values written to [_last_groq_error], oldest first. *)
Definition recorded_errors (t : list event) : list pystr :=
  flat_map (fun e => match e with Set_last_groq_error v => [v] | _ => [] end) t.

(* ================================================================== *)
(** * JSON values, as [response.json()] returns them *)
(* ================================================================== *)

#[local] Unset Elimination Schemes.
Inductive json :=
| JNull
| JBool (b : bool)
| JInt (z : Z)
| JFloat (q : Q)
| JStr (s : pystr)
| JList (l : list json)
| JDict (d : list (pystr * json)).
#[local] Set Elimination Schemes.

(** Dictionaries are association lists; a key is looked up from the left. *)
Fixpoint dict_get {V} (d : list (pystr * V)) (k : pystr) : option V :=
  match d with
  | [] => None
  | (k', v) :: d' => if pystr_eqb k' k then Some v else dict_get d' k
  end.

Definition type_name (j : json) : pystr :=
  match j with
  | JNull => py "NoneType"
  | JBool _ => py "bool"
  | JInt _ => py "int"
  | JFloat _ => py "float"
  | JStr _ => py "str"
  | JList _ => py "list"
  | JDict _ => py "dict"
  end.

(** Truth value, as [if x] and [and] take it. *)
Definition json_truthy (j : json) : bool :=
  match j with
  | JNull => false
  | JBool b => b
  | JInt z => negb (z =? 0)%Z
  | JFloat q => negb (Qeq_bool q 0%Q)
  | JStr s => truthy s
  | JList l => match l with [] => false | _ => true end
  | JDict d => match d with [] => false | _ => true end
  end.

(** [key in x] *)
Definition json_contains (key : pystr) (x : json) : outcome bool :=
  match x with
  | JDict d => Returned (match dict_get d key with Some _ => true | None => false end)
  | JList l =>
      Returned (existsb (fun e => match e with
                                  | JStr s => pystr_eqb s key
                                  | _ => false
                                  end) l)
  | JStr s => Returned (contains key s)
  | _ => Raised (TypeError (py "argument of type '" ++ type_name x
                              ++ py "' is not iterable"))
  end.

Definition not_subscriptable (x : json) : exn :=
  TypeError (py "'" ++ type_name x ++ py "' object is not subscriptable").

(** [x[key]] with a [str] key *)
Definition getitem_str (x : json) (key : pystr) : outcome json :=
  match x with
  | JDict d =>
      match dict_get d key with
      | Some v => Returned v
      | None => Raised (KeyError (py "'" ++ key ++ py "'"))
      end
  | JList _ =>
      Raised (TypeError (py "list indices must be integers or slices, not str"))
  | JStr _ => Raised (TypeError (py "string indices must be integers, not 'str'"))
  | _ => Raised (not_subscriptable x)
  end.

(** [x[0]] *)
Definition getitem_0 (x : json) : outcome json :=
  match x with
  | JList l =>
      match l with
      | v :: _ => Returned v
      | [] => Raised (IndexError (py "list index out of range"))
      end
  | JStr s =>
      match s with
      | c :: _ => Returned (JStr [c])
      | [] => Raised (IndexError (py "string index out of range"))
      end
  | JDict _ => Raised (KeyError (py "0"))    (* JSON keys are strings *)
  | _ => Raised (not_subscriptable x)
  end.

(** [x.strip()] *)
Definition method_strip (x : json) : outcome pystr :=
  match x with
  | JStr s => Returned (strip s)
  | _ => Raised (AttributeError (py "'" ++ type_name x
                                   ++ py "' object has no attribute 'strip'"))
  end.

(* ================================================================== *)
(** * LLM client: [call_groq_api], [analyze_resume_with_llm] *)
(* ================================================================== *)

Definition MODEL : pystr := py "llama-3.1-8b-instant".

(** The system message of lines 274-280. *)
Definition SYSTEM_PROMPT : pystr := py "
                    You are a professional resume analyzer and career counselor.
                    Provide detailed, actionable feedback. Use clear formatting with bullet points.
                    For strengths, start bullet points with [STRENGTH].
                    For weaknesses, start bullet points with [WEAKNESS].
                    Be specific and provide concrete examples.
                    ".

Definition API_FAILED : pystr := py "API_FAILED".

Definition NO_KEY_MESSAGE : pystr :=
  py "⚠ No Groq API key found. Please check your .env file.".

Definition API_UNAVAILABLE_MESSAGE : pystr :=
  py "API temporarily unavailable. Please refer to manual analysis guidelines below.".

(** Lines 285-288, the part of the [try] block after the call:
    [Returned (Some r)] is [return r], [Returned None] leaves the block
    without returning, [Raised e] goes to the handler. *)
Definition read_completion (response : json) : outcome (option pystr) :=
  (if negb (json_truthy response) then Returned None
   else
     has_choices <-! json_contains (py "choices") response;
     if negb has_choices then Returned None
     else
       choices <-! getitem_str response (py "choices");
       first <-! getitem_0 choices;
       message <-! getitem_str first (py "message");
       result <-! getitem_str message (py "content");
       if negb (json_truthy result) then Returned None
       else
         stripped <-! method_strip result;
         if (10 <? List.length stripped)%nat then Returned (Some stripped)
         else Returned None)%outcome.

Section LLMClient.

(** [os.getenv("GROQ_API_KEY")] *)
Variable groq_api_key : option pystr.

(** The service: what the [n]-th request of the run (counted from 0)
    makes [requests.post(...).json()] do. *)
Variable backend : nat -> request -> outcome json.

(** [not groq_api_key] is false *)
Definition key_configured : bool :=
  match groq_api_key with
  | Some (_ :: _) => true
  | _ => false
  end.

Definition call_groq_api (api_key model : pystr)
    (messages : list (pystr * pystr)) (max_tokens : Z) : M (outcome json) :=
  fun w =>
    let r := {| req_api_key := api_key; req_model := model;
                req_messages := messages; req_max_tokens := max_tokens |} in
    (backend (api_calls (w_trace w)) r,
     {| w_session := w_session w; w_trace := w_trace w ++ [Api_call r] |}).

(** The handler's last branch, lines 296-303. *)
Definition report_failure : M pystr :=
  (s <- get_session ;;
   st_error (py "❌ Analysis failed: " ++ get_default (last_groq_error s) []) ;;
   st_info (py "💡 This could be due to:") ;;
   st_info (py "• API rate limits - please wait a few minutes and try again") ;;
   st_info (py "• Network connectivity issues") ;;
   st_info (py "• Invalid API key - check your .env file") ;;
   st_info (py "• Model availability issues") ;;
   st_warning (py "🔄 Switching to manual analysis guidelines...") ;;
   ret API_FAILED)%M.

(** [for attempt in range(max_retries)]: [todo] iterations are left and
    the next one has index [attempt]. *)
Fixpoint retry_loop (prompt : pystr) (max_retries : Z)
    (todo : nat) (attempt : Z) : M pystr :=
  match todo with
  | O => ret API_FAILED
  | S todo' =>
    (response <- call_groq_api (get_default groq_api_key []) MODEL
                   [(py "system", SYSTEM_PROMPT); (py "user", prompt)] 1000 ;;
     match obind response read_completion with
     | Returned (Some result) => ret result
     | Returned None => retry_loop prompt max_retries todo' (attempt + 1)
     | Raised e =>
         let error_msg := str_exn e in
         set_last_groq_error
           (py "Attempt " ++ str_of_Z (attempt + 1) ++ py ": " ++ error_msg) ;;
         if (attempt <? max_retries - 1)%Z
         then
           st_info (py "Retrying analysis (attempt " ++ str_of_Z (attempt + 2)
                      ++ py "/" ++ str_of_Z max_retries ++ py ")...") ;;
           retry_loop prompt max_retries todo' (attempt + 1)
         else report_failure
     end)%M
  end.

Definition analyze_resume_with_llm (prompt : pystr) (max_retries : Z)
    : M pystr :=
  if negb key_configured then ret NO_KEY_MESSAGE
  else
    (s <- get_session ;;
     if get_default (api_tested s) false
        && negb (get_default (api_working s) true)
     then
       st_warning (py "🔄 API connection issues detected. Showing manual analysis guidelines.") ;;
       ret API_UNAVAILABLE_MESSAGE
     else retry_loop prompt max_retries (Z.to_nat max_retries) 0)%M.

(** The startup probe of lines 210-225: run once per session, when a key
    is configured and [api_tested] is not in the session yet. *)
Definition health_probe : M unit :=
  fun w =>
    match api_tested (w_session w) with
    | None =>
      if key_configured then
        let (response, w1) :=
          call_groq_api (get_default groq_api_key []) MODEL
            [(py "user", py "Hello")] 10 w in
        let working :=
          match response with Returned _ => true | Raised _ => false end in
        let msgs :=
          match response with
          | Returned _ => [St Success (py "✅ API connection successful!")]
          | Raised e =>
              [St Warning (py "⚠ API connection issue: " ++ str_exn e);
               St Info (py "💡 Please check your API key and try again")]
          end in
        (tt, {| w_session :=
                  {| api_tested := Some true; api_working := Some working;
                     last_groq_error := last_groq_error (w_session w1) |};
                w_trace := w_trace w1 ++ msgs |})
      else (tt, w)
    | Some _ => (tt, w)
    end.

End LLMClient.

(* ================================================================== *)
(** * Result formatter: [format_analysis_result] *)
(* ================================================================== *)

Definition TAG_STRENGTH : pystr := py "[STRENGTH]".
Definition TAG_WEAKNESS : pystr := py "[WEAKNESS]".
Definition FOUR_NEWLINES : pystr := [LF; LF; LF; LF].
Definition BR : pystr := py "<br>".
Definition NO_CONTENT : pystr := py "<p>No content to display.</p>".

(** The six [replace] calls of lines 372-378, in their order. *)
Definition strip_markers (content : pystr) : pystr :=
  let content := replace [] [] content in
  let content := replace (py "*") [] content in
  let content := replace (py "+") [] content in
  let content := replace [BULLET] [] content in
  let content := replace (py "*") [] content in
  let content := replace TAG_STRENGTH [] content in
  replace TAG_WEAKNESS [] content.

(** One turn of the loop of lines 382-396: what it appends to
    [formatted_lines]. *)
Definition format_section (section : pystr) : list pystr :=
  let section := strip section in
  if negb (truthy section) then []
  else
    match split [LF] section with
    | [] => []
    | line0 :: rest =>
        let heading := strip line0 in
        if endswith (py ":") heading
        then heading :: filter truthy (map strip rest)
        else [section]
    end.

Definition format_analysis_result (content : pystr) : pystr :=
  if negb (truthy content) then NO_CONTENT
  else
    let content := strip_markers content in
    let sections := split FOUR_NEWLINES content in
    join BR (flat_map format_section sections).

(* ================================================================== *)
(** * Static guidance and analysis options *)
(* ================================================================== *)

Definition provide_manual_analysis_tips : list (pystr * pystr) :=
  [ (py "Quick Overview",
     py "
        Your resume has been uploaded and processed successfully.
        Here are some general guidelines to review:
        - Your contact information is prominent and current.
        - Your experience is listed in reverse chronological order.
        - Your skills section matches the job requirements.
        - Look for quantifiable achievements and results.
        ");
    (py "Issues Analysis",
     py "
        Common resume issues to check manually:
        - Formatting problems: Inconsistent fonts, sizes, or spacing.
        - Content issues: Typos, vague job descriptions, missing achievements.
        - Structure problems: No clear summary, poor organization.
        ");
    (py "Enhancement Tips",
     py "
        Focus on these improvement areas:
        - Add quantifiable achievements.
        - Use action verbs to start bullet points.
        - Customize your resume for each job application.
        - Include relevant keywords from the job posting.
        ");
    (py "Job Matching",
     py "
        To manually assess job matching:
        - Compare your resume against the job posting.
        - Highlight matching skills and experience.
        - Identify gaps: Missing technical skills, lack of industry experience.
        ") ].

Record option_entry := {
  description : pystr;
  prompt : pystr
}.

Definition analysis_options : list (pystr * option_entry) :=
  [ (py "Quick Overview",
     {| description := py "Get a rapid summary of the resume's key strengths and areas";
        prompt := py "
        Provide a comprehensive overview of this resume including key strengths and notable areas for improvement.
        Focus on the candidate's experience, skills, and overall presentation.
        " |});
    (py "Issues Analysis",
     {| description := py "Identify specific weaknesses and improvement areas";
        prompt := py "
        Analyze this resume and identify specific issues, weaknesses, and areas that need improvement.
        For each issue identified, mark it with [WEAKNESS] and provide specific suggestions for enhancement.
        " |});
    (py "Enhancement Tips",
     {| description := py "Get actionable tips to improve the resume";
        prompt := py "
        Provide specific, actionable tips to enhance this resume.
        Mark positive aspects with [STRENGTH] and improvement suggestions with [WEAKNESS].
        Include formatting, content, and presentation recommendations.
        " |});
    (py "Job Matching",
     {| description := py "Analyze how well the resume matches the job requirements";
        prompt := py "
        Compare this resume against the job description and analyze the match.
        Mark matching qualifications with [STRENGTH] and gaps with [WEAKNESS].
        Provide a match percentage and specific recommendations.
        " |});
    (py "Complete Analysis",
     {| description := py "Comprehensive analysis covering all aspects";
        prompt := py "
        Provide a complete analysis of this resume, covering all aspects including strengths, weaknesses, and job matching.
        " |}) ].

Definition dict_keys {V} (d : list (pystr * V)) : list pystr := map fst d.

(** [d[k] = v]: an existing key keeps its place. *)
Fixpoint dict_set {V} (d : list (pystr * V)) (k : pystr) (v : V)
    : list (pystr * V) :=
  match d with
  | [] => [(k, v)]
  | (k', v') :: d' =>
      if pystr_eqb k' k then (k', v) :: d' else (k', v') :: dict_set d' k v
  end.

(* ================================================================== *)
(** * Results page (lines 639-753) *)
(* ================================================================== *)

(** The literal parts of the f-string of lines 702-707. *)
Definition RESUME_LABEL : pystr := py "
                Resume Content:
                ".
Definition JOB_LABEL : pystr := py "
                Job Description:
                ".
Definition CLOSING : pystr := py "
                Please provide detailed analysis with specific examples and actionable recommendations.".

(** The f-string of lines 702-707. *)
Definition full_prompt (template resume_text job_description : pystr) : pystr :=
  template ++ RESUME_LABEL ++ firstn 4000 resume_text
  ++ JOB_LABEL ++ job_description ++ CLOSING.

(** The literal parts of the f-string of lines 672-677 (deeper
    indentation). *)
Definition RESUME_LABEL_COMPLETE : pystr := py "
                    Resume Content:
                    ".
Definition JOB_LABEL_COMPLETE : pystr := py "
                    Job Description:
                    ".
Definition CLOSING_COMPLETE : pystr := py "
                    Please provide detailed analysis with specific examples and actionable recommendations.".

(** The f-string of lines 672-677. *)
Definition full_prompt_complete (template resume_text job_description : pystr)
    : pystr :=
  template ++ RESUME_LABEL_COMPLETE ++ firstn 4000 resume_text
  ++ JOB_LABEL_COMPLETE ++ job_description ++ CLOSING_COMPLETE.

Definition analysis_steps : list (pystr * pystr) :=
  [ (py "Quick Overview", py "overview");
    (py "Issues Analysis", py "issues");
    (py "Enhancement Tips", py "tips");
    (py "Job Matching", py "matching") ].

(** Line 669 *)
Definition step_options (step_key : pystr) : list pystr :=
  filter (fun k => contains step_key (replace (py " ") [] (lower k)))
         (dict_keys analysis_options).

Definition COMPLETE_ANALYSIS : pystr := py "Complete Analysis".

(** What the page shows for one analysis: the text kept as [result] and the
    markup put in the [analysis-result] panel. *)
Record shown := {
  result_text : pystr;
  panel_markup : pystr
}.

Inductive page_view :=
| No_resume                                   (* line 642 *)
| No_job_description                          (* line 647 *)
| Complete_view (report_data : list (pystr * pystr)) (panels : list shown)
| Single_view (panel : option shown) (retry_button : bool)
| Nothing_selected.                           (* line 750 *)

Section ResultsPage.

Variable groq_api_key : option pystr.
Variable backend : nat -> request -> outcome json.

(** [analyze_resume_with_llm(full_prompt)], with the default
    [max_retries = 3]. *)
Definition analyze (p : pystr) : M pystr :=
  analyze_resume_with_llm groq_api_key backend p 3.

(** Lines 666-682 *)
Fixpoint complete_loop (steps : list (pystr * pystr))
    (resume_text job_description : pystr)
    (report_data : list (pystr * pystr)) (panels : list shown)
    : M (list (pystr * pystr) * list shown) :=
  match steps with
  | [] => ret (report_data, panels)
  | (step_name, step_key) :: steps' =>
    match step_options step_key with
    | [] => complete_loop steps' resume_text job_description report_data panels
    | first_option :: _ =>
      match dict_get analysis_options first_option with
      | None => ret (report_data, panels)   (* not reached: the key comes
                                               from [analysis_options] *)
      | Some entry =>
        (let p := full_prompt_complete (prompt entry) resume_text
                    job_description in
         result <- analyze p ;;
         let report_data := dict_set report_data step_name result in
         let formatted_result := format_analysis_result result in
         complete_loop steps' resume_text job_description report_data
           (panels ++ [{| result_text := result;
                          panel_markup := formatted_result |}]))%M
      end
    end
  end.

(** Lines 700-723 *)
Definition single_analysis (analysis_type resume_text job_description : pystr)
    : M page_view :=
  match dict_get analysis_options analysis_type with
  | None => ret (Single_view None false)
  | Some prompt_data =>
    (let p := full_prompt (prompt prompt_data) resume_text job_description in
     result <- analyze p ;;
     result <- (if pystr_eqb result API_FAILED
                then
                  st_warning (py "🔄 API temporarily unavailable. Showing manual analysis guidelines:") ;;
                  let manual_tips := provide_manual_analysis_tips in
                  ret (get_default (dict_get manual_tips analysis_type)
                         (get_default
                            (dict_get manual_tips (py "Quick Overview")) []))
                else ret result) ;;
     let formatted_result := format_analysis_result result in
     ret (Single_view
            (Some {| result_text := result; panel_markup := formatted_result |})
            (pystr_eqb result API_FAILED
             || contains (py "API temporarily unavailable") result)))%M
  end.

(** Lines 641-753, without the download and navigation buttons. *)
Definition results_page (resume_text job_description selected_analysis : pystr)
    : M page_view :=
  if negb (truthy resume_text) then
    (st_warning (py "⚠ No resume data found. Please upload a resume first.") ;;
     ret No_resume)%M
  else if negb (truthy job_description) then
    (st_warning (py "⚠ No job description found. Please provide a job description.") ;;
     ret No_job_description)%M
  else if truthy selected_analysis then
    let analysis_type := selected_analysis in
    if pystr_eqb analysis_type COMPLETE_ANALYSIS then
      (r <- complete_loop analysis_steps resume_text job_description [] [] ;;
       ret (Complete_view (fst r) (snd r)))%M
    else single_analysis analysis_type resume_text job_description
  else
    (st_info (py "👆 No analysis type selected. Please go back and choose an analysis type.") ;;
     ret Nothing_selected)%M.

End ResultsPage.

(* ================================================================== *)
(** * Document extractor: [process_pdf] *)
(* ================================================================== *)

(** The upload as [process_pdf] meets it: what reading
    [uploaded_file.type] gives (line 312) and what calling
    [uploaded_file.getvalue()] gives (line 315).  Both run before the first
    [try], so an exception there reaches the caller.  Streamlit's
    [UploadedFile] is a [BytesIO]: once it is closed, [getvalue] raises
    [ValueError]. *)
Record uploaded_file := {
  file_type : outcome pystr;
  file_value : outcome (list N)
}.

(** The two lists [process_pdf] fills; both routes append to the same
    objects. *)
Record buffers (image : Type) := {
  text_bits : list pystr;
  preview : list image
}.
Arguments Build_buffers {image} _ _.
Arguments text_bits {image} _.
Arguments preview {image} _.

Definition PDF_MIME : pystr := py "application/pdf".
Definition BLANK_LINE : pystr := [LF; LF].

Definition extraction_error (e : exn) : event :=
  St Error (py "Could not extract anything from this PDF: " ++ str_exn e).

Definition ocr_warning (e : exn) : event :=
  St Warning (py "OCR pipeline failed (" ++ str_exn e
              ++ py ") – falling back to text extraction").

(** [try: body except Exception as e: handler(e)] around stateful code. *)
Definition try_except {A} (body : M (outcome A)) (handler : exn -> M (outcome A))
    : M (outcome A) :=
  (r <- body ;;
   match r with
   | Returned a => ret (Returned a)
   | Raised e => handler e
   end)%M.

Section Extractor.

Variable image : Type.     (* a PIL image *)
Variable page : Type.      (* a pdfplumber page *)

(** Module-level flags, lines 52-75. *)
Variable HAS_POPPLER : bool.
Variable HAS_TESSERACT : bool.
Variable pdf2image_imported : bool.
Variable pytesseract_imported : bool.

Definition USE_PDF2IMAGE : bool :=
  HAS_POPPLER && HAS_TESSERACT && pdf2image_imported.

(** The libraries.  [pages] is [Some (first_page, last_page)] when both
    are given. *)
Variable convert_from_bytes :
  list N -> Z -> option (nat * nat) -> outcome (list image).
Variable image_to_string : image -> outcome pystr.
Variable pdfplumber_open : list N -> outcome (list page).
Variable extract_text : page -> outcome (option pystr).

(** Lines 328-331; [i] is the index [enumerate] gives the next image. *)
Fixpoint ocr_pages (i : nat) (images : list image) (b : buffers image)
    : outcome unit * buffers image :=
  match images with
  | [] => (Returned tt, b)
  | img :: rest =>
    let b1 := if (i <? 2)%nat
              then Build_buffers (text_bits b) (preview b ++ [img])
              else b in
    match image_to_string img with
    | Raised e => (Raised e, b1)
    | Returned t =>
        ocr_pages (S i) rest (Build_buffers (text_bits b1 ++ [t]) (preview b1))
    end
  end.

(** Lines 321-331: the body of the first [try], up to the [return]. *)
Definition ocr_route (bytes_data : list N) (b : buffers image) : outcome unit * buffers image :=
  match convert_from_bytes bytes_data 200 None with
  | Raised e => (Raised e, b)
  | Returned images =>
    if pytesseract_imported then ocr_pages 0 images b
    else (Raised (NameError (py "name 'pytesseract' is not defined")), b)
  end.

(** Lines 347-358: the optional preview of page [i]; a failure is
    swallowed. *)
Definition preview_page (bytes_data : list N) (i : nat) (b : buffers image)
    : buffers image :=
  let attempt :=
    (if pdf2image_imported then
       imgs <-! convert_from_bytes bytes_data 150 (Some (S i, S i)) ;
       match imgs with
       | img :: _ => Returned img
       | [] => Raised (IndexError (py "list index out of range"))
       end
     else Raised (ImportError (py "No module named 'pdf2image'")))%outcome in
  match attempt with
  | Returned preview_img => Build_buffers (text_bits b) (preview b ++ [preview_img])
  | Raised _ => b
  end.

(** [page.extract_text() or ""] *)
Definition page_text (t : option pystr) : pystr :=
  match t with Some (c :: s) => c :: s | _ => [] end.

(** Lines 342-358 *)
Fixpoint text_pages (bytes_data : list N) (i : nat) (pages : list page)
    (b : buffers image) : outcome unit * buffers image :=
  match pages with
  | [] => (Returned tt, b)
  | pg :: rest =>
    match extract_text pg with
    | Raised e => (Raised e, b)
    | Returned t =>
      let b1 := Build_buffers (text_bits b ++ [page_text t]) (preview b) in
      let b2 := if HAS_POPPLER && (i <? 2)%nat
                then preview_page bytes_data i b1 else b1 in
      text_pages bytes_data (S i) rest b2
    end
  end.

(** Lines 340-358: the body of the second [try], up to the [return]. *)
Definition text_route (bytes_data : list N) (b : buffers image) : outcome unit * buffers image :=
  match pdfplumber_open bytes_data with
  | Raised e => (Raised e, b)
  | Returned pages => text_pages bytes_data 0 pages b
  end.

(** A route followed by its [return "\n\n".join(text_bits), preview]. *)
Definition route_result (r : outcome unit * buffers image)
    : outcome (pystr * list image) :=
  match fst r with
  | Returned _ => Returned (join BLANK_LINE (text_bits (snd r)), preview (snd r))
  | Raised e => Raised e
  end.

(** The text of every page, or the first exception met. *)
Fixpoint page_texts (pages : list page) : outcome (list pystr) :=
  match pages with
  | [] => Returned []
  | pg :: rest =>
      (t <-! extract_text pg ;
       ts <-! page_texts rest ;
       Returned (page_text t :: ts))%outcome
  end.

(** The buffers the text-layer path starts with, when it is taken:
    empty ones without the OCR route, and what the OCR route left when it
    raised. *)
Definition text_layer_start (bytes_data : list N) : option (buffers image) :=
  if USE_PDF2IMAGE then
    match ocr_route bytes_data (Build_buffers [] []) with
    | (Raised _, b) => Some b
    | (Returned _, _) => None
    end
  else Some (Build_buffers [] []).

(** The exception the extraction ends with when both paths fail. *)
Definition total_failure (uploaded : option uploaded_file) : option exn :=
  match uploaded with
  | None => None
  | Some f =>
    match file_type f, file_value f with
    | Returned type, Returned bytes_data =>
      if pystr_eqb type PDF_MIME then
        match text_layer_start bytes_data with
        | Some b =>
            match fst (text_route bytes_data b) with
            | Raised e => Some e
            | Returned _ => None
            end
        | None => None
        end
      else None
    | _, _ => None
    end
  end.

(** Lines 339-364 *)
Definition text_layer_path (bytes_data : list N) (b : buffers image)
    : M (outcome (pystr * list image)) :=
  try_except
    (ret (route_result (text_route bytes_data b)))
    (fun e => (emit (extraction_error e) ;; ret (Returned ([], [])))%M).

(** Lines 316-364, once the bytes are read. *)
Definition extract_from (bytes_data : list N)
    : M (outcome (pystr * list image)) :=
  let b0 : buffers image := Build_buffers [] [] in
  if USE_PDF2IMAGE then
    let r := ocr_route bytes_data b0 in
    try_except
      (ret (route_result r))
      (fun e => (emit (ocr_warning e) ;;
                 text_layer_path bytes_data (snd r))%M)
  else text_layer_path bytes_data b0.

(** Lines 306-364.  [None] is an argument that is not truthy; the two
    reads of the upload are outside the [try] blocks, so what they raise
    is what the call raises. *)
Definition process_pdf (uploaded : option uploaded_file)
    : M (outcome (pystr * list image)) :=
  match uploaded with
  | None => ret (Returned ([], []))
  | Some f =>
    match file_type f with
    | Raised e => ret (Raised e)
    | Returned type =>
      if negb (pystr_eqb type PDF_MIME) then ret (Returned ([], []))
      else
        match file_value f with
        | Raised e => ret (Raised e)
        | Returned bytes_data => extract_from bytes_data
        end
    end
  end.

End Extractor.

(* ================================================================== *)
(** * Report generator: [generate_enhanced_pdf_report] *)
(* ================================================================== *)

Inductive style := title_style | heading_style | body_style | bullet_style.

Inductive flowable :=
| Paragraph (text : pystr) (st : style)
| Spacer (width height : Z).

(** [s[i]] *)
Definition str_index (s : pystr) (i : nat) : outcome N :=
  match nth_error s i with
  | Some c => Returned c
  | None => Raised (IndexError (py "string index out of range"))
  end.

Section Report.

(** [str.isdigit] above the ASCII range (the interpreter's table). *)
Variable unicode_isdigit : N -> bool.

(** reportlab: the markup error [Paragraph(text, style)] raises, if any,
    and what [doc.build(elements); buffer.getvalue()] gives. *)
Variable markup_error : pystr -> style -> option exn.
Variable doc_build : list flowable -> outcome (list N).

Definition isdigit (c : N) : bool :=
  if (c <? 128)%N then ((48 <=? c) && (c <=? 57))%N else unicode_isdigit c.

Definition new_paragraph (text : pystr) (st : style) : outcome flowable :=
  match markup_error text st with
  | None => Returned (Paragraph text st)
  | Some e => Raised e
  end.

(** The test of line 460. *)
Definition is_bullet_line (clean_line : pystr) : outcome bool :=
  (if startswith [BULLET] clean_line then Returned true
   else if (0 <? List.length clean_line)%nat then
     c0 <-! str_index clean_line 0 ;
     if isdigit c0 then
       c1 <-! str_index clean_line 1 ;
       Returned (pystr_eqb [c1] (py "."))
     else Returned false
   else Returned false)%outcome.

(** Lines 456-463: the elements one line adds. *)
Definition report_line (line : pystr) : outcome (list flowable) :=
  let line := strip line in
  if truthy line then
    let clean_line :=
      strip (replace [] [] (replace TAG_WEAKNESS []
                              (replace TAG_STRENGTH [] line))) in
    (bullet <-! is_bullet_line clean_line ;
     p <-! new_paragraph clean_line (if bullet then bullet_style else body_style) ;
     Returned [p])%outcome
  else Returned [].

Fixpoint report_lines (lines : list pystr) (elements : list flowable)
    : outcome (list flowable) :=
  match lines with
  | [] => Returned elements
  | line :: rest =>
      (added <-! report_line line ;
       report_lines rest (elements ++ added))%outcome
  end.

(** Lines 452-464 *)
Fixpoint report_sections (report_data : list (pystr * pystr))
    (elements : list flowable) : outcome (list flowable) :=
  match report_data with
  | [] => Returned elements
  | (section, content) :: rest =>
    if truthy content && truthy (strip content) then
      (heading <-! new_paragraph (py "📋 " ++ section) heading_style ;
       elements <-! report_lines (split [LF] content) (elements ++ [heading]) ;
       report_sections rest (elements ++ [Spacer 1 15]))%outcome
    else report_sections rest elements
  end.

Definition generate_enhanced_pdf_report (report_data : list (pystr * pystr))
    : M (outcome (list N)) :=
  match
    (title <-! new_paragraph (py "📄 Resume Analysis Report") title_style ;
     report_sections report_data [title; Spacer 1 20])%outcome
  with
  | Raised e => ret (Raised e)
  | Returned elements =>
    try_except
      (ret (doc_build elements))
      (fun e => (st_error (py "Error generating PDF report: " ++ str_exn e) ;;
                 ret (Returned []))%M)
  end.

End Report.

(* ================================================================== *)
(** * Specification vocabulary *)
(* ================================================================== *)

(** The request every attempt of [analyze_resume_with_llm] posts. *)
Definition analysis_request (groq_api_key : option pystr) (prompt : pystr)
    : request :=
  {| req_api_key := get_default groq_api_key [];
     req_model := MODEL;
     req_messages := [(py "system", SYSTEM_PROMPT); (py "user", prompt)];
     req_max_tokens := 1000 |}.

(** An attempt fails when it does not reach the [return] of line 288. *)
Definition attempt_fails (o : outcome json) : Prop :=
  forall result, obind o read_completion <> Returned (Some result).

(** The exception an attempt ends with, if it ends with one. *)
Definition attempt_error (o : outcome json) : option exn :=
  match obind o read_completion with
  | Raised e => Some e
  | Returned _ => None
  end.

(** Line 291 *)
Definition error_record (attempt : Z) (e : exn) : pystr :=
  py "Attempt " ++ str_of_Z (attempt + 1) ++ py ": " ++ str_exn e.

(** The records a run of failed attempts is expected to write: one for each
    attempt that raised, in order. *)
Fixpoint expected_records (backend : nat -> request -> outcome json)
    (r : request) (call : nat) (attempt : Z) (todo : nat) : list pystr :=
  match todo with
  | O => []
  | S todo' =>
      match attempt_error (backend call r) with
      | Some e => [error_record attempt e]
      | None => []
      end ++ expected_records backend r (S call) (attempt + 1) todo'
  end.

(** The attempts of a run that fail: the ones before the first attempt
    that reaches the [return] of line 288, or all [todo] of them; [call] is
    the number of the next request. *)
Fixpoint failed_attempts (backend : nat -> request -> outcome json)
    (r : request) (call : nat) (todo : nat) : nat :=
  match todo with
  | O => 0
  | S todo' =>
      match obind (backend call r) read_completion with
      | Returned (Some _) => 0
      | _ => S (failed_attempts backend r (S call) todo')
      end
  end.

(** An error message on the page. *)
Definition is_error (e : event) : bool :=
  match e with St Error _ => true | _ => false end.

(** The reads [process_pdf] makes of its argument return: the type of
    an upload, and the bytes of an upload that is a PDF. *)
Definition readable (uploaded : option uploaded_file) : bool :=
  match uploaded with
  | None => true
  | Some f =>
    match file_type f with
    | Raised _ => false
    | Returned type =>
      if pystr_eqb type PDF_MIME then
        match file_value f with
        | Returned _ => true
        | Raised _ => false
        end
      else true
    end
  end.

(** The health probe recorded the service as unreachable. *)
Definition recorded_unreachable (s : session) : bool :=
  get_default (api_tested s) false && negb (get_default (api_working s) true).

(** The completion field of a well-formed response,
    [choices[0].message.content]. *)
Definition completion_field (response : json) : option json :=
  match response with
  | JDict d =>
    match dict_get d (py "choices") with
    | Some (JList (JDict first :: _)) =>
      match dict_get first (py "message") with
      | Some (JDict message) => dict_get message (py "content")
      | _ => None
      end
    | _ => None
    end
  | _ => None
  end.

Definition fresh_session : session :=
  {| api_tested := None; api_working := None; last_groq_error := None |}.

Definition fresh_world : world :=
  {| w_session := fresh_session; w_trace := [] |}.

(** The requests of a trace, oldest first. *)
Definition requests (t : list event) : list request :=
  flat_map (fun e => match e with Api_call r => [r] | _ => [] end) t.

(** The prompts the steps of a Complete Analysis give. *)
Definition step_prompts (steps : list (pystr * pystr))
    (resume_text job_description : pystr) : list pystr :=
  flat_map
    (fun step =>
       match step_options (snd step) with
       | [] => []
       | first_option :: _ =>
           match dict_get analysis_options first_option with
           | Some entry =>
               [full_prompt_complete (prompt entry) resume_text job_description]
           | None => []
           end
       end)
    steps.

(** A run posts requests for the prompts [ps], and nothing else. *)
Definition posts {A} (groq_api_key : option pystr) (m : M A) (w : world)
    (ps : list pystr) : Prop :=
  requests (w_trace (snd (m w)))
  = requests (w_trace w) ++ map (analysis_request groq_api_key) ps.

(** The prompts the Results page builds for an analysis type: one on the
    single-analysis branch (lines 700-707), one per step on the
    Complete Analysis branch (lines 666-677). *)
Definition built_prompts (analysis_type resume_text job_description : pystr)
    : list pystr :=
  if pystr_eqb analysis_type COMPLETE_ANALYSIS then
    step_prompts analysis_steps resume_text job_description
  else
    match dict_get analysis_options analysis_type with
    | Some prompt_data =>
        [full_prompt (prompt prompt_data) resume_text job_description]
    | None => []
    end.

(** The text each built prompt puts before and after the resume. *)
Definition prompt_frames (analysis_type job_description : pystr)
    : list (pystr * pystr) :=
  if pystr_eqb analysis_type COMPLETE_ANALYSIS then
    flat_map
      (fun step =>
         match step_options (snd step) with
         | [] => []
         | first_option :: _ =>
             match dict_get analysis_options first_option with
             | Some entry =>
                 [(prompt entry ++ RESUME_LABEL_COMPLETE,
                   JOB_LABEL_COMPLETE ++ job_description ++ CLOSING_COMPLETE)]
             | None => []
             end
         end)
      analysis_steps
  else
    match dict_get analysis_options analysis_type with
    | Some prompt_data =>
        [(prompt prompt_data ++ RESUME_LABEL,
          JOB_LABEL ++ job_description ++ CLOSING)]
    | None => []
    end.

Definition fill (resume_part : pystr) (frame : pystr * pystr) : pystr :=
  fst frame ++ resume_part ++ snd frame.

(* ================================================================== *)
(** * Vocabulary for the formatter *)
(* ================================================================== *)

(** What [strip_markers] removes: the bullet glyphs and the two tags. *)
Definition MARKERS : list pystr :=
  [py "*"; py "+"; [BULLET]; TAG_STRENGTH; TAG_WEAKNESS].

(** No marker occurs in the text. *)
Definition already_clean (x : pystr) : bool :=
  forallb (fun m => negb (contains m x)) MARKERS.

(** [a] occurs in [s]. *)
Definition infix (a s : pystr) : Prop := exists l r, s = l ++ a ++ r.

(** The first character, if there is one, is not whitespace. *)
Definition headok (s : pystr) : bool :=
  match s with
  | [] => true
  | c :: _ => negb (isspace c)
  end.

(** The last character that is not whitespace. *)
Definition lastvis (s : pystr) : option N := hd_error (lstrip (rev s)).

(** No character of [pat] is a character of [sep]. *)
Definition disjoint (pat sep : pystr) : bool :=
  forallb (fun c => negb (existsb (N.eqb c) sep)) pat.

(** A text whose first line, when there is more than one line, ends with a
    visible character other than the colon. *)
Definition plain_first_line (s : pystr) : Prop :=
  forall a b, s = a ++ LF :: b -> ~ In LF a ->
              exists d, lastvis a = Some d /\ d <> 58%N.

(** A non-empty text with a visible character at each end. *)
Definition visible_ends (s : pystr) : Prop :=
  s <> [] /\ headok s = true /\ headok (rev s) = true.

(* ================================================================== *)
(** * Sample inputs *)
(* ================================================================== *)

(** A service that is down: every request raises. *)
Definition backend_down : nat -> request -> outcome json :=
  fun _ _ => Raised (LibraryError (py "Connection refused")).

(** A session in which the startup probe found the service down. *)
Definition session_down : session :=
  {| api_tested := Some true; api_working := Some false;
     last_groq_error := None |}.

(** A service that answers every request with an error object, as it does
    for a rejected key: no exception, and no [choices]. *)
Definition backend_rejects : nat -> request -> outcome json :=
  fun _ _ =>
    Returned (JDict [(py "error",
                      JDict [(py "message", JStr (py "Invalid API Key"))])]).

(** A well-formed response with the given completion. *)
Definition completion_response (content : pystr) : json :=
  JDict [(py "choices",
          JList [JDict [(py "message", JDict [(py "content", JStr content)])]])].

(** A service that is down for the first two requests and then answers. *)
Definition backend_recovers : nat -> request -> outcome json :=
  fun n _ =>
    if n <? 2 then Raised (LibraryError (py "Connection refused"))
    else Returned (completion_response (py "OK, detailed analysis...")).

(** A two-page document without a text layer, read without the OCR tools:
    a page is represented by what [extract_text] gives for it. *)
Definition blank_pdf : uploaded_file :=
  {| file_type := Returned PDF_MIME;
     file_value := Returned [37; 80; 68; 70]%N |}.

(** The same upload once it is closed. *)
Definition closed_pdf : uploaded_file :=
  {| file_type := Returned PDF_MIME;
     file_value := Raised (ValueError (py "I/O operation on closed file.")) |}.

Definition process_blank_pdf : M (outcome (pystr * list unit)) :=
  process_pdf unit (option pystr) false false false false
    (fun _ _ _ => Raised (LibraryError (py "Unable to get page count")))
    (fun _ => Raised (LibraryError (py "tesseract is not installed")))
    (fun _ => Returned [None; None])
    (fun pg => Returned pg)
    (Some blank_pdf).

(** The same for a document of one page. *)
Definition process_blank_page : M (outcome (pystr * list unit)) :=
  process_pdf unit (option pystr) false false false false
    (fun _ _ _ => Raised (LibraryError (py "Unable to get page count")))
    (fun _ => Raised (LibraryError (py "tesseract is not installed")))
    (fun _ => Returned [None])
    (fun pg => Returned pg)
    (Some blank_pdf).

(** The same, with the upload closed. *)
Definition process_closed_pdf : M (outcome (pystr * list unit)) :=
  process_pdf unit (option pystr) false false false false
    (fun _ _ _ => Raised (LibraryError (py "Unable to get page count")))
    (fun _ => Raised (LibraryError (py "tesseract is not installed")))
    (fun _ => Returned [None; None])
    (fun pg => Returned pg)
    (Some closed_pdf).

(** A review with a heading section and a plain section. *)
Definition sample_review : pystr := py "Skills:
  Python
  SQL



Solid profile
overall".

(** A review with bullet glyphs, a tag and a glyph inside a word. *)
Definition sample_bullets : pystr := py "• Knows C++ and a*b
• [STRENGTH] Solid profile".

(* ================================================================== *)
(** * Properties of the string operations *)
(* ================================================================== *)

Lemma startswith_iff (p : pystr) :
  forall s, startswith p s = true <-> exists t, s = p ++ t.
Proof.
  induction p as [|x p IH]; intros s.
  - split; [intros _; exists s; reflexivity | reflexivity].
  - destruct s as [|y s]; cbn [startswith].
    + split; [discriminate | intros (t & H); discriminate H].
    + rewrite andb_true_iff, N.eqb_eq, IH. split.
      * intros (-> & t & ->). exists t. reflexivity.
      * intros (t & H). injection H as -> ->. split; [reflexivity|].
        exists t. reflexivity.
Qed.

Lemma contains_unfold (p s : pystr) :
  contains p s
  = startswith p s || match s with [] => false | _ :: t => contains p t end.
Proof. destruct s; reflexivity. Qed.

Lemma contains_iff (p s : pystr) : contains p s = true <-> infix p s.
Proof.
  unfold infix. split.
  - induction s as [|c s IH]; rewrite contains_unfold; intros H.
    + rewrite orb_false_r in H. apply startswith_iff in H as (t & ->).
      exists [], t. reflexivity.
    + apply orb_true_iff in H as [H|H].
      * apply startswith_iff in H as (t & ->). exists [], t. reflexivity.
      * destruct (IH H) as (l & r & ->). exists (c :: l), r. reflexivity.
  - intros (l & r & ->). induction l as [|c l IH].
    + rewrite contains_unfold.
      replace (startswith p ([] ++ p ++ r)) with true; [reflexivity|].
      symmetry. apply startswith_iff. exists r. reflexivity.
    + cbn [app]. rewrite contains_unfold, IH. apply orb_true_r.
Qed.

Lemma infix_refl (s : pystr) : infix s s.
Proof. exists [], []. rewrite app_nil_r. reflexivity. Qed.

Lemma infix_trans (a b c : pystr) : infix a b -> infix b c -> infix a c.
Proof.
  intros (l1 & r1 & ->) (l2 & r2 & ->).
  exists (l2 ++ l1), (r1 ++ r2). rewrite <- !app_assoc. reflexivity.
Qed.

(** What does not occur in a text does not occur in its parts. *)
Lemma absent_infix (p a s : pystr) :
  infix a s -> contains p s = false -> contains p a = false.
Proof.
  intros Ha Hs. destruct (contains p a) eqn:Hpa; [|reflexivity].
  rewrite <- Hs. symmetry. apply contains_iff.
  apply (infix_trans p a s); [apply contains_iff; exact Hpa | exact Ha].
Qed.

Lemma contains_char (c : N) (s : pystr) : contains [c] s = true <-> In c s.
Proof.
  rewrite contains_iff. split.
  - intros (l & r & ->). apply in_or_app. right. left. reflexivity.
  - intros H. apply in_split in H as (l & r & ->). exists l, r. reflexivity.
Qed.

Lemma absent_char (c : N) (s : pystr) : contains [c] s = false <-> ~ In c s.
Proof.
  rewrite <- contains_char. destruct (contains [c] s); split; intros H;
    try reflexivity; try discriminate; try (intros H'; discriminate H').
  exfalso. apply H. reflexivity.
Qed.

(** ** [replace] and [split] when the pattern does not occur *)

Lemma replace_from_absent (old new : pystr) (s : pystr) :
  contains old s = false -> replace_from old new 0 s = s.
Proof.
  induction s as [|c s IH]; [reflexivity|].
  rewrite contains_unfold. intros H. apply orb_false_iff in H as (H1 & H2).
  cbn [replace_from]. rewrite H1, (IH H2). reflexivity.
Qed.

Lemma replace_absent (old new s : pystr) :
  old <> [] -> contains old s = false -> replace old new s = s.
Proof.
  intros Hold H. destruct old as [|c old]; [contradiction|].
  apply replace_from_absent. exact H.
Qed.

Lemma replace_empty_by_empty (s : pystr) : replace [] [] s = s.
Proof.
  unfold replace. cbn [app]. induction s as [|c s IH]; [reflexivity|].
  cbn [flat_map app]. rewrite IH. reflexivity.
Qed.

Lemma split_absent (sep s : pystr) :
  contains sep s = false -> split sep s = [s].
Proof.
  unfold split. induction s as [|c s IH]; [reflexivity|].
  rewrite contains_unfold. intros H. apply orb_false_iff in H as (H1 & H2).
  cbn [split_from]. rewrite H1, (IH H2). reflexivity.
Qed.

(** ** [split] and [join] *)

Lemma split_from_nonempty (sep : pystr) (s : pystr) :
  forall k, split_from sep k s <> [].
Proof.
  induction s as [|c s IH]; intros k; [discriminate|].
  cbn [split_from]. destruct k as [|k]; [|apply IH].
  destruct (startswith sep (c :: s)); [discriminate|].
  specialize (IH 0). destruct (split_from sep 0 s); [contradiction|discriminate].
Qed.

Lemma join_cons (sep p : pystr) (l : list pystr) :
  l <> [] -> join sep (p :: l) = p ++ sep ++ join sep l.
Proof. destruct l; [contradiction|reflexivity]. Qed.

Lemma join_cons_head (sep : pystr) (c : N) (l : list pystr) :
  l <> [] -> join sep (cons_head c l) = c :: join sep l.
Proof.
  destruct l as [|p [|q l]]; [contradiction|reflexivity|reflexivity].
Qed.

Lemma skipn_app_exact {A} (a b : list A) : skipn (List.length a) (a ++ b) = b.
Proof. induction a as [|x a IH]; [reflexivity|exact IH]. Qed.

(** Joining the pieces gives the text back. *)
Lemma join_split_from (sep : pystr) :
  sep <> [] ->
  forall s k, join sep (split_from sep k s) = skipn k s.
Proof.
  intros Hsep. induction s as [|c s IH]; intros k.
  - destruct k; reflexivity.
  - cbn [split_from]. destruct k as [|k]; [|apply IH].
    destruct (startswith sep (c :: s)) eqn:Hstart.
    + rewrite join_cons by apply split_from_nonempty. rewrite IH.
      apply startswith_iff in Hstart as (t & Ht).
      destruct sep as [|x sep]; [contradiction|].
      injection Ht as -> ->. cbn [List.length Nat.sub app skipn].
      rewrite Nat.sub_0_r, skipn_app_exact. reflexivity.
    + rewrite join_cons_head by apply split_from_nonempty.
      rewrite IH. reflexivity.
Qed.

Lemma join_split (sep s : pystr) : sep <> [] -> join sep (split sep s) = s.
Proof. intros Hsep. apply (join_split_from sep Hsep s 0). Qed.

Lemma in_join_infix (sep p : pystr) (l : list pystr) :
  In p l -> infix p (join sep l).
Proof.
  induction l as [|q l IH]; [contradiction|]. intros [->|H].
  - destruct l as [|q' l]; [apply infix_refl|].
    exists [], (sep ++ join sep (q' :: l)). reflexivity.
  - destruct l as [|q' l]; [contradiction|].
    rewrite join_cons by discriminate.
    destruct (IH H) as (a & b & ->). exists (q ++ sep ++ a), b.
    rewrite <- !app_assoc. reflexivity.
Qed.

Lemma split_piece_infix (sep s p : pystr) :
  sep <> [] -> In p (split sep s) -> infix p s.
Proof.
  intros Hsep H. rewrite <- (join_split sep s Hsep) at 1.
  apply in_join_infix. exact H.
Qed.

Lemma split_head_prefix (sep s p : pystr) (ps : list pystr) :
  sep <> [] -> split_from sep 0 s = p :: ps -> exists u, s = p ++ u.
Proof.
  intros Hsep H. pose proof (join_split_from sep Hsep s 0) as J.
  rewrite H in J. cbn [skipn] in J. rewrite <- J.
  destruct ps as [|q ps].
  - exists []. rewrite app_nil_r. reflexivity.
  - exists (sep ++ join sep (q :: ps)). reflexivity.
Qed.

(** No piece contains the separator. *)
Lemma split_from_pieces_absent (sep : pystr) :
  sep <> [] ->
  forall s k, Forall (fun p => contains sep p = false) (split_from sep k s).
Proof.
  intros Hsep.
  assert (Hnil : contains sep [] = false).
  { destruct sep; [contradiction|reflexivity]. }
  induction s as [|c s IH]; intros k.
  - constructor; [exact Hnil|constructor].
  - cbn [split_from]. destruct k as [|k]; [|apply IH].
    destruct (startswith sep (c :: s)) eqn:Hstart.
    + constructor; [exact Hnil|apply IH].
    + specialize (IH 0).
      destruct (split_from sep 0 s) as [|p ps] eqn:Hsplit.
      * exfalso. exact (split_from_nonempty sep s 0 Hsplit).
      * cbn [cons_head]. inversion IH as [|? ? Hp Hps]; subst.
        constructor; [|exact Hps].
        rewrite contains_unfold, Hp, orb_false_r.
        destruct (startswith sep (c :: p)) eqn:Hcp; [|reflexivity].
        rewrite <- Hstart. symmetry.
        apply startswith_iff in Hcp as (t & Ht).
        destruct (split_head_prefix sep s p ps Hsep Hsplit) as (u & ->).
        apply startswith_iff. exists (t ++ u).
        rewrite app_assoc, <- Ht. reflexivity.
Qed.

Lemma split_piece_absent (sep s p : pystr) :
  sep <> [] -> In p (split sep s) -> contains sep p = false.
Proof.
  intros Hsep H.
  pose proof (split_from_pieces_absent sep Hsep s 0) as HF.
  rewrite Forall_forall in HF. apply HF. exact H.
Qed.

(** ** [strip] *)

Lemma lstrip_headok (s : pystr) : headok (lstrip s) = true.
Proof.
  induction s as [|c s IH]; [reflexivity|].
  cbn [lstrip]. destruct (isspace c) eqn:Hc; [exact IH|].
  cbn [headok]. rewrite Hc. reflexivity.
Qed.

Lemma lstrip_id (s : pystr) : headok s = true -> lstrip s = s.
Proof.
  destruct s as [|c s]; [reflexivity|]. cbn [headok lstrip].
  destruct (isspace c); [discriminate|reflexivity].
Qed.

Lemma lstrip_app (a b : pystr) :
  lstrip (a ++ b) = if forallb isspace a then lstrip b else lstrip a ++ b.
Proof.
  induction a as [|c a IH]; [reflexivity|].
  cbn [app lstrip forallb]. destruct (isspace c); [exact IH|reflexivity].
Qed.

Lemma lstrip_decomp (s : pystr) :
  exists ws, s = ws ++ lstrip s /\ forallb isspace ws = true.
Proof.
  induction s as [|c s (ws & Hs & Hws)].
  - exists []. split; reflexivity.
  - cbn [lstrip]. destruct (isspace c) eqn:Hc.
    + exists (c :: ws). cbn [app forallb]. rewrite Hc, Hws, <- Hs.
      split; reflexivity.
    + exists []. split; reflexivity.
Qed.

Lemma lstrip_nil_iff (s : pystr) : lstrip s = [] <-> forallb isspace s = true.
Proof.
  induction s as [|c s IH]; [split; reflexivity|].
  cbn [lstrip forallb]. destruct (isspace c); [exact IH|].
  split; discriminate.
Qed.

Lemma forallb_rev {A} (f : A -> bool) (l : list A) :
  forallb f (rev l) = forallb f l.
Proof.
  induction l as [|x l IH]; [reflexivity|].
  cbn [rev forallb]. rewrite forallb_app, IH. cbn [forallb].
  rewrite andb_true_r. apply andb_comm.
Qed.

Lemma rstrip_decomp (s : pystr) :
  exists ws, s = rstrip s ++ ws /\ forallb isspace ws = true.
Proof.
  destruct (lstrip_decomp (rev s)) as (ws & Hs & Hws).
  exists (rev ws). split.
  - unfold rstrip. rewrite <- rev_app_distr, <- Hs, rev_involutive. reflexivity.
  - rewrite forallb_rev. exact Hws.
Qed.

Lemma strip_infix (s : pystr) : infix (strip s) s.
Proof.
  destruct (lstrip_decomp s) as (l & Hl & _).
  destruct (rstrip_decomp (lstrip s)) as (r & Hr & _).
  exists l, r. unfold strip. rewrite <- Hr. exact Hl.
Qed.

Lemma rstrip_headok (s : pystr) : headok s = true -> headok (rstrip s) = true.
Proof.
  intros H. destruct (rstrip_decomp s) as (ws & Hs & Hws).
  destruct (rstrip s) as [|c r]; [reflexivity|].
  rewrite Hs in H. exact H.
Qed.

Lemma strip_headok (s : pystr) : headok (strip s) = true.
Proof. apply rstrip_headok, lstrip_headok. Qed.

Lemma strip_rev_headok (s : pystr) : headok (rev (strip s)) = true.
Proof.
  unfold strip, rstrip. rewrite rev_involutive. apply lstrip_headok.
Qed.

Lemma strip_id (s : pystr) :
  headok s = true -> headok (rev s) = true -> strip s = s.
Proof.
  intros H1 H2. unfold strip, rstrip.
  rewrite (lstrip_id s H1), (lstrip_id (rev s) H2). apply rev_involutive.
Qed.

Lemma strip_nil_iff (s : pystr) : strip s = [] <-> forallb isspace s = true.
Proof.
  split.
  - intros H. destruct (lstrip_decomp s) as (l & Hl & Hlws).
    destruct (rstrip_decomp (lstrip s)) as (r & Hr & Hrws).
    unfold strip in H. rewrite H in Hr. rewrite Hl, Hr.
    rewrite forallb_app, Hlws. exact Hrws.
  - intros H. unfold strip. apply lstrip_nil_iff in H. rewrite H. reflexivity.
Qed.

(** ** The last visible character *)

Lemma lastvis_app (a b : pystr) :
  lastvis (a ++ b)
  = match lastvis b with Some d => Some d | None => lastvis a end.
Proof.
  unfold lastvis. rewrite rev_app_distr, lstrip_app.
  destruct (forallb isspace (rev b)) eqn:Hb.
  - apply lstrip_nil_iff in Hb. rewrite Hb. reflexivity.
  - destruct (lstrip (rev b)) as [|d r] eqn:Hl; [|reflexivity].
    apply lstrip_nil_iff in Hl. rewrite Hl in Hb. discriminate Hb.
Qed.

Lemma lastvis_visible (s : pystr) :
  forallb isspace s = false -> exists d, lastvis s = Some d.
Proof.
  intros H. unfold lastvis.
  destruct (lstrip (rev s)) as [|d r] eqn:Hl; [|exists d; reflexivity].
  apply lstrip_nil_iff in Hl. rewrite forallb_rev, H in Hl. discriminate Hl.
Qed.

Lemma lastvis_lstrip (s : pystr) : lastvis (lstrip s) = lastvis s.
Proof.
  destruct (lstrip_decomp s) as (ws & Hs & Hws).
  rewrite Hs at 2. rewrite lastvis_app.
  destruct (lastvis (lstrip s)) as [d|] eqn:Hl; [reflexivity|].
  unfold lastvis. symmetry.
  replace (lstrip (rev ws)) with (@nil N); [reflexivity|].
  symmetry. apply lstrip_nil_iff. rewrite forallb_rev. exact Hws.
Qed.

(** [strip(s).endswith(c)] looks at the last visible character of [s]. *)
Lemma endswith_strip (c : N) (s : pystr) :
  endswith [c] (strip s)
  = match lastvis s with Some d => (c =? d)%N | None => false end.
Proof.
  rewrite <- lastvis_lstrip.
  unfold endswith, strip, rstrip, lastvis. rewrite rev_involutive.
  cbn [rev app].
  destruct (lstrip (rev (lstrip s))) as [|d r]; [reflexivity|].
  cbn [startswith hd_error]. rewrite andb_true_r. reflexivity.
Qed.

(** ** Lines *)

Lemma first_occurrence (c : N) (s : pystr) :
  In c s -> exists a b, s = a ++ c :: b /\ ~ In c a.
Proof.
  induction s as [|x s IH]; [contradiction|]. intros H.
  destruct (N.eq_dec x c) as [->|Hx].
  - exists [], s. split; [reflexivity|intros []].
  - destruct H as [H|H]; [contradiction|].
    destruct (IH H) as (a & b & -> & Ha). exists (x :: a), b.
    split; [reflexivity|]. intros [H'|H']; [contradiction|exact (Ha H')].
Qed.

Lemma first_occurrence_unique (c : N) (a a' b b' : pystr) :
  a ++ c :: b = a' ++ c :: b' -> ~ In c a -> ~ In c a' -> a = a' /\ b = b'.
Proof.
  revert a'. induction a as [|x a IH]; intros [|x' a'] H Ha Ha'.
  - injection H as ->. split; reflexivity.
  - injection H as <- _. exfalso. apply Ha'. left. reflexivity.
  - injection H as -> _. exfalso. apply Ha. left. reflexivity.
  - injection H as -> H.
    destruct (IH a' H) as (-> & ->).
    + intros H'. apply Ha. right. exact H'.
    + intros H'. apply Ha'. right. exact H'.
    + split; reflexivity.
Qed.

(** [split] on one character cuts at its first occurrence. *)
Lemma split_char_first (c : N) (a b : pystr) :
  ~ In c a -> split [c] (a ++ c :: b) = a :: split [c] b.
Proof.
  unfold split. induction a as [|x a IH]; intros Ha.
  - cbn [app split_from startswith]. rewrite N.eqb_refl. reflexivity.
  - cbn [app split_from startswith].
    replace (c =? x)%N with false.
    + cbn [andb]. rewrite IH; [reflexivity|].
      intros H. apply Ha. right. exact H.
    + symmetry. apply N.eqb_neq. intros ->. apply Ha. left. reflexivity.
Qed.

(** ** Patterns that share no character with the separator *)

Lemma disjoint_cons (x : N) (pat sep : pystr) :
  disjoint (x :: pat) sep = true ->
  ~ In x sep /\ disjoint pat sep = true.
Proof.
  unfold disjoint. cbn [forallb]. intros H.
  apply andb_true_iff in H as (Hx & Hp). split; [|exact Hp].
  intros Hin. apply negb_true_iff in Hx.
  assert (existsb (N.eqb x) sep = true); [|congruence].
  apply existsb_exists. exists x. split; [exact Hin|apply N.eqb_refl].
Qed.

Lemma startswith_before_sep (sep b : pystr) :
  sep <> [] ->
  forall pat a,
    disjoint pat sep = true ->
    startswith pat (a ++ sep ++ b) = true -> startswith pat a = true.
Proof.
  intros Hsep. induction pat as [|x pat IH]; intros a Hd H; [reflexivity|].
  apply disjoint_cons in Hd as (Hx & Hd).
  destruct a as [|y a].
  - exfalso. destruct sep as [|s0 sep]; [contradiction|].
    cbn [app startswith] in H. apply andb_true_iff in H as (H & _).
    apply N.eqb_eq in H. subst s0. apply Hx. left. reflexivity.
  - cbn [app startswith] in *. apply andb_true_iff in H as (-> & H).
    cbn [andb]. apply (IH a Hd H).
Qed.

Lemma contains_after_sep (pat sep b : pystr) :
  pat <> [] -> disjoint pat sep = true ->
  contains pat (sep ++ b) = true -> contains pat b = true.
Proof.
  intros Hpat Hd. destruct pat as [|x pat]; [contradiction|].
  apply disjoint_cons in Hd as (Hx & _).
  induction sep as [|s0 sep IH]; intros H; [exact H|].
  cbn [app] in H. rewrite contains_unfold in H.
  apply orb_true_iff in H as [H|H].
  - exfalso. cbn [startswith] in H. apply andb_true_iff in H as (H & _).
    apply N.eqb_eq in H. subst s0. apply Hx. left. reflexivity.
  - apply IH; [|exact H]. intros Hin. apply Hx. right. exact Hin.
Qed.

Lemma contains_around_sep (pat sep a b : pystr) :
  pat <> [] -> sep <> [] -> disjoint pat sep = true ->
  contains pat (a ++ sep ++ b) = true ->
  contains pat a = true \/ contains pat b = true.
Proof.
  intros Hpat Hsep Hd. induction a as [|c a IH]; intros H.
  - right. apply (contains_after_sep pat sep b Hpat Hd H).
  - cbn [app] in H. rewrite contains_unfold in H.
    apply orb_true_iff in H as [H|H].
    + left. rewrite contains_unfold.
      rewrite (startswith_before_sep sep b Hsep pat (c :: a) Hd H).
      reflexivity.
    + destruct (IH H) as [Ha|Hb]; [left|right; exact Hb].
      rewrite contains_unfold, Ha. apply orb_true_r.
Qed.

(** An occurrence in a joined text lies in one of the pieces. *)
Lemma contains_join (pat sep : pystr) (l : list pystr) :
  pat <> [] -> sep <> [] -> disjoint pat sep = true ->
  contains pat (join sep l) = true ->
  exists p, In p l /\ contains pat p = true.
Proof.
  intros Hpat Hsep Hd. induction l as [|p l IH]; intros H.
  - exfalso. destruct pat; [contradiction|discriminate H].
  - destruct l as [|q l].
    + exists p. split; [left; reflexivity|exact H].
    + rewrite join_cons in H by discriminate.
      destruct (contains_around_sep pat sep p _ Hpat Hsep Hd H) as [Hp|Hj].
      * exists p. split; [left; reflexivity|exact Hp].
      * destruct (IH Hj) as (p' & Hin & Hp').
        exists p'. split; [right; exact Hin|exact Hp'].
Qed.

Lemma absent_join (pat sep : pystr) (l : list pystr) :
  pat <> [] -> sep <> [] -> disjoint pat sep = true ->
  Forall (fun p => contains pat p = false) l ->
  contains pat (join sep l) = false.
Proof.
  intros Hpat Hsep Hd Hl.
  destruct (contains pat (join sep l)) eqn:H; [|reflexivity].
  destruct (contains_join pat sep l Hpat Hsep Hd H) as (p & Hin & Hp).
  rewrite Forall_forall in Hl. rewrite (Hl p Hin) in Hp. discriminate Hp.
Qed.

(** ** Joined pieces *)

Lemma join_visible_ends (sep : pystr) (l : list pystr) :
  l <> [] -> Forall visible_ends l -> visible_ends (join sep l).
Proof.
  induction l as [|p l IH]; [contradiction|]. intros _ Hl.
  inversion Hl as [|? ? (Hp & Hhead & Hlast) Hrest]; subst.
  destruct l as [|q l]; [repeat split; assumption|].
  rewrite join_cons by discriminate.
  destruct (IH ltac:(discriminate) Hrest) as (Hj & _ & Hjlast).
  repeat split.
  - destruct p; [contradiction|discriminate].
  - destruct p as [|c p]; [contradiction|exact Hhead].
  - rewrite !rev_app_distr.
    destruct (rev (join sep (q :: l))) as [|c r] eqn:Hr; [|exact Hjlast].
    exfalso. apply Hj. rewrite <- (rev_involutive (join sep (q :: l))), Hr.
    reflexivity.
Qed.

Lemma join_allspace (sep : pystr) (l : list pystr) :
  forallb isspace sep = true ->
  Forall (fun p => forallb isspace p = true) l ->
  forallb isspace (join sep l) = true.
Proof.
  intros Hsep. induction l as [|p l IH]; intros Hl; [reflexivity|].
  inversion Hl as [|? ? Hp Hrest]; subst.
  destruct l as [|q l]; [exact Hp|].
  rewrite join_cons by discriminate.
  rewrite !forallb_app, Hp, Hsep, (IH Hrest). reflexivity.
Qed.

(** The first line of a joined text is plain when the first lines of the
    pieces are. *)
Lemma join_plain_first_line (sep : pystr) (l : list pystr) :
  ~ In LF sep ->
  Forall plain_first_line l -> plain_first_line (join sep l).
Proof.
  intros Hsep. induction l as [|p l IH]; intros Hl.
  - intros a b H. destruct a; discriminate H.
  - inversion Hl as [|? ? Hp Hrest]; subst.
    destruct l as [|q l]; [exact Hp|].
    rewrite join_cons by discriminate.
    specialize (IH Hrest). intros a b H Ha.
    destruct (in_dec N.eq_dec LF p) as [Hin|Hnot].
    + destruct (first_occurrence LF p Hin) as (a1 & b1 & Hp1 & Ha1).
      rewrite Hp1, <- app_assoc in H. cbn [app] in H.
      destruct (first_occurrence_unique LF a a1 _ _ (eq_sym H) Ha Ha1) as (-> & _).
      apply (Hp a1 b1 Hp1 Ha1).
    + assert (HinJ : In LF (join sep (q :: l))).
      { assert (Hall : In LF (p ++ sep ++ join sep (q :: l))).
        { rewrite H. apply in_or_app. right. left. reflexivity. }
        apply in_app_or in Hall as [Hall|Hall]; [contradiction|].
        apply in_app_or in Hall as [Hall|Hall]; [contradiction|exact Hall]. }
      destruct (first_occurrence LF _ HinJ) as (a2 & b2 & Hj & Ha2).
      rewrite Hj in H.
      assert (Hpre : ~ In LF (p ++ sep ++ a2)).
      { intros Hall.
        apply in_app_or in Hall as [Hall|Hall]; [contradiction|].
        apply in_app_or in Hall as [Hall|Hall]; contradiction. }
      replace (p ++ sep ++ a2 ++ LF :: b2)
        with ((p ++ sep ++ a2) ++ LF :: b2) in H
        by (rewrite <- !app_assoc; reflexivity).
      destruct (first_occurrence_unique LF a _ _ _ (eq_sym H) Ha Hpre) as (-> & _).
      destruct (IH a2 b2 Hj Ha2) as (d & Hd & Hcolon).
      exists d. split; [|exact Hcolon].
      rewrite app_assoc, lastvis_app, Hd. reflexivity.
Qed.

Example py_bullet : py "•" = [BULLET].
Proof. reflexivity. Qed.

Example py_emoji : py "🔄" = [128260%N].
Proof. reflexivity. Qed.

Example split_four :
  split (py "ab") (py "xabyababz") = [py "x"; py "y"; []; py "z"].
Proof. reflexivity. Qed.

Example replace_overlap : replace (py "aa") (py "b") (py "aaaxaa") = py "baxb".
Proof. reflexivity. Qed.

Example strip_both : strip (py "  a b
 ") = py "a b".
Proof. reflexivity. Qed.

Example str_of_Z_12 : str_of_Z 12 = py "12" /\ str_of_Z 0 = py "0".
Proof. split; reflexivity. Qed.

(* ================================================================== *)
(** * Properties of the LLM client *)
(* ================================================================== *)

Lemma api_calls_app (t u : list event) :
  api_calls (t ++ u) = api_calls t + api_calls u.
Proof.
  unfold api_calls. rewrite filter_app, length_app. reflexivity.
Qed.

Lemma recorded_errors_app (t u : list event) :
  recorded_errors (t ++ u) = recorded_errors t ++ recorded_errors u.
Proof.
  unfold recorded_errors. apply flat_map_app.
Qed.

(** How each kind of event moves the two counters. *)
Lemma api_calls_call (t : list event) (r : request) :
  api_calls (t ++ [Api_call r]) = S (api_calls t).
Proof. rewrite api_calls_app. cbn. lia. Qed.

Lemma api_calls_st (t : list event) (l : level) (m : pystr) :
  api_calls (t ++ [St l m]) = api_calls t.
Proof. rewrite api_calls_app. cbn. lia. Qed.

Lemma api_calls_record (t : list event) (v : pystr) :
  api_calls (t ++ [Set_last_groq_error v]) = api_calls t.
Proof. rewrite api_calls_app. cbn. lia. Qed.

Lemma recorded_errors_call (t : list event) (r : request) :
  recorded_errors (t ++ [Api_call r]) = recorded_errors t.
Proof. rewrite recorded_errors_app. cbn. apply app_nil_r. Qed.

Lemma recorded_errors_st (t : list event) (l : level) (m : pystr) :
  recorded_errors (t ++ [St l m]) = recorded_errors t.
Proof. rewrite recorded_errors_app. cbn. apply app_nil_r. Qed.

Lemma recorded_errors_record (t : list event) (v : pystr) :
  recorded_errors (t ++ [Set_last_groq_error v]) = recorded_errors t ++ [v].
Proof. rewrite recorded_errors_app. reflexivity. Qed.

Create Rewrite HintDb trace.
#[local] Hint Rewrite api_calls_call api_calls_st api_calls_record
  recorded_errors_call recorded_errors_st recorded_errors_record : trace.

Section LLMClientFacts.

Variable groq_api_key : option pystr.
Variable backend : nat -> request -> outcome json.
Variable prompt : pystr.
Variable max_retries : Z.

Let req := analysis_request groq_api_key prompt.
Let loop := retry_loop groq_api_key backend prompt max_retries.

(** [report_failure] only writes messages. *)
Lemma report_failure_spec (w : world) :
  exists msgs,
    report_failure w
    = (API_FAILED, {| w_session := w_session w; w_trace := w_trace w ++ msgs |})
    /\ api_calls msgs = 0
    /\ recorded_errors msgs = []
    /\ hd_error msgs
       = Some (St Error (py "❌ Analysis failed: "
                         ++ get_default (last_groq_error (w_session w)) [])).
Proof.
  eexists. split.
  - unfold report_failure, bind, get_session, st_error, st_info, st_warning,
      emit, ret. cbn [w_session w_trace].
    repeat rewrite <- app_assoc. cbn [app]. reflexivity.
  - repeat split.
Qed.

(** One turn of the loop, by the way the attempt ends. *)
Lemma loop_step (todo : nat) (attempt : Z) (w : world) :
  let w1 := {| w_session := w_session w; w_trace := w_trace w ++ [Api_call req] |} in
  loop (S todo) attempt w =
  match obind (backend (api_calls (w_trace w)) req) read_completion with
  | Returned (Some result) => (result, w1)
  | Returned None => loop todo (attempt + 1)%Z w1
  | Raised e =>
      let w2 := {| w_session :=
                     {| api_tested := api_tested (w_session w);
                        api_working := api_working (w_session w);
                        last_groq_error := Some (error_record attempt e) |};
                   w_trace := w_trace w1
                              ++ [Set_last_groq_error (error_record attempt e)] |} in
      if (attempt <? max_retries - 1)%Z
      then loop todo (attempt + 1)%Z
             {| w_session := w_session w2;
                w_trace := w_trace w2
                  ++ [St Info (py "Retrying analysis (attempt "
                               ++ str_of_Z (attempt + 2) ++ py "/"
                               ++ str_of_Z max_retries ++ py ")...")] |}
      else report_failure w2
  end.
Proof.
  cbv zeta. unfold loop, req, analysis_request. cbn [retry_loop].
  unfold bind at 1. unfold call_groq_api.
  match goal with |- context [obind ?o read_completion] =>
    destruct (obind o read_completion) as [[result|]|e] end;
    try reflexivity.
  unfold bind, set_last_groq_error, st_info, emit.
  cbn [w_session w_trace].
  destruct (attempt <? max_retries - 1)%Z; reflexivity.
Qed.

Hypothesis always_fails : forall n r, attempt_fails (backend n r).

(** A run in which every attempt fails, started with [todo] turns left
    where the last turn has index [max_retries - 1]. *)
Lemma loop_exhausted (todo : nat) :
  forall (attempt : Z) (w : world),
    (Z.of_nat todo + attempt = max_retries)%Z ->
    let records :=
      expected_records backend req (api_calls (w_trace w)) attempt todo in
    fst (loop todo attempt w) = API_FAILED
    /\ api_calls (w_trace (snd (loop todo attempt w)))
       = api_calls (w_trace w) + todo
    /\ recorded_errors (w_trace (snd (loop todo attempt w)))
       = recorded_errors (w_trace w) ++ records
    /\ last_groq_error (w_session (snd (loop todo attempt w)))
       = fold_left (fun _ r => Some r) records
           (last_groq_error (w_session w)).
Proof.
  induction todo as [|todo IH]; intros attempt w Hinv; cbv zeta.
  - cbn. rewrite app_nil_r. repeat split. lia.
  - rewrite loop_step. cbn [expected_records]. unfold attempt_error.
    pose proof (always_fails (api_calls (w_trace w)) req) as Hfail.
    destruct (obind (backend (api_calls (w_trace w)) req) read_completion)
      as [[result|]|e] eqn:Hres.
    + exfalso. exact (Hfail result Hres).
    + match goal with |- context [loop todo ?a ?w'] =>
        specialize (IH a w') end.
      cbv zeta in IH. cbn [w_session w_trace] in IH.
      autorewrite with trace in IH.
      destruct IH as (H1 & H2 & H3 & H4); [lia|].
      cbn [app]. repeat split; try assumption. lia.
    + cbv zeta. cbn [w_session w_trace].
      destruct (attempt <? max_retries - 1)%Z eqn:Hlast.
      * match goal with |- context [loop todo ?a ?w'] =>
          specialize (IH a w') end.
        cbv zeta in IH. cbn [w_session w_trace last_groq_error] in IH.
        autorewrite with trace in IH.
        destruct IH as (H1 & H2 & H3 & H4); [lia|].
        cbn [app fold_left]. repeat split; try assumption.
        -- lia.
        -- rewrite H3, <- app_assoc. reflexivity.
      * apply Z.ltb_ge in Hlast.
        assert (todo = 0) by lia. subst todo.
        match goal with |- context [report_failure ?w'] =>
          destruct (report_failure_spec w') as (msgs & -> & Hc & Hr & _) end.
        cbn [fst snd w_session w_trace last_groq_error expected_records].
        rewrite (api_calls_app _ msgs), (recorded_errors_app _ msgs), Hc, Hr.
        autorewrite with trace. rewrite !app_nil_r.
        cbn [fold_left]. repeat split. lia.
Qed.

(** When the last attempt of such a run raises, the error message shows
    its record. *)
Lemma loop_exhausted_shows_last (todo : nat) :
  forall (attempt : Z) (w : world) (e : exn),
    (Z.of_nat (S todo) + attempt = max_retries)%Z ->
    attempt_error (backend (api_calls (w_trace w) + todo) req) = Some e ->
    In (St Error (py "❌ Analysis failed: "
                  ++ error_record (max_retries - 1) e))
       (w_trace (snd (loop (S todo) attempt w))).
Proof.
  induction todo as [|todo IH]; intros attempt w e Hinv Herr.
  - rewrite Nat.add_0_r in Herr. rewrite loop_step.
    unfold attempt_error in Herr.
    destruct (obind (backend (api_calls (w_trace w)) req) read_completion)
      as [[result|]|e'] eqn:Hres; try discriminate Herr.
    injection Herr as ->. cbv zeta.
    replace (attempt <? max_retries - 1)%Z with false
      by (symmetry; apply Z.ltb_ge; lia).
    match goal with |- context [report_failure ?w'] =>
      destruct (report_failure_spec w') as (msgs & -> & _ & _ & Hhd) end.
    cbn [snd w_trace w_session last_groq_error get_default] in *.
    apply in_or_app. right.
    destruct msgs as [|m msgs]; [discriminate Hhd|].
    injection Hhd as ->. left.
    replace (max_retries - 1)%Z with attempt by lia. reflexivity.
  - rewrite loop_step.
    pose proof (always_fails (api_calls (w_trace w)) req) as Hfail.
    destruct (obind (backend (api_calls (w_trace w)) req) read_completion)
      as [[result|]|e'] eqn:Hres.
    + exfalso. exact (Hfail result Hres).
    + apply IH; [lia|]. cbn [w_trace]. rewrite api_calls_call.
      rewrite <- Herr. f_equal. f_equal. lia.
    + cbv zeta.
      replace (attempt <? max_retries - 1)%Z with true
        by (symmetry; apply Z.ltb_lt; lia).
      apply IH; [lia|]. cbn [w_trace]. autorewrite with trace.
      rewrite <- Herr. f_equal. f_equal. lia.
Qed.

End LLMClientFacts.

(** A well-formed response whose completion is long enough reaches the
    [return] of line 288 with the completion stripped. *)
Lemma read_completion_well_formed (response : json) (content : pystr) :
  completion_field response = Some (JStr content) ->
  10 < List.length (strip content) ->
  read_completion response = Returned (Some (strip content)).
Proof.
  intros Hfield Hlen.
  destruct response as [| | | | |l|d]; try discriminate.
  unfold completion_field in Hfield.
  destruct (dict_get d (py "choices")) as [choices|] eqn:Hchoices;
    [|discriminate].
  destruct choices as [| | | | |[|[| | | | |l|first] rest]|d']; try discriminate.
  destruct (dict_get first (py "message")) as [message|] eqn:Hmessage;
    [|discriminate].
  destruct message as [| | | | |l|message]; try discriminate.
  assert (Hd : json_truthy (JDict d) = true).
  { destruct d; [discriminate Hchoices | reflexivity]. }
  assert (Hc : json_truthy (JStr content) = true).
  { destruct content; [cbn in Hlen; lia | reflexivity]. }
  unfold read_completion. rewrite Hd. cbn [negb].
  cbn [json_contains obind]. rewrite Hchoices. cbn [negb].
  cbn [getitem_str obind]. rewrite Hchoices. cbn [getitem_0 getitem_str obind].
  rewrite Hmessage. cbn [getitem_str obind]. rewrite Hfield.
  cbn [obind]. rewrite Hc. cbn [negb method_strip obind].
  apply Nat.ltb_lt in Hlen. rewrite Hlen. reflexivity.
Qed.

(** Past the two guards, [analyze_resume_with_llm] is the retry loop. *)
Lemma analyze_enters_loop (groq_api_key : option pystr)
    (backend : nat -> request -> outcome json) (prompt : pystr)
    (max_retries : Z) (w : world) :
  key_configured groq_api_key = true ->
  recorded_unreachable (w_session w) = false ->
  analyze_resume_with_llm groq_api_key backend prompt max_retries w
  = retry_loop groq_api_key backend prompt max_retries
      (Z.to_nat max_retries) 0 w.
Proof.
  intros Hkey Hreach. unfold analyze_resume_with_llm. rewrite Hkey.
  cbn [negb]. unfold bind, get_session.
  unfold recorded_unreachable in Hreach. rewrite Hreach. reflexivity.
Qed.

(** When every attempt fails, the call ends with [API_FAILED]. *)
Lemma analyze_exhausted (groq_api_key : option pystr)
    (backend : nat -> request -> outcome json) (prompt : pystr)
    (max_retries : Z) (w : world) :
  key_configured groq_api_key = true ->
  recorded_unreachable (w_session w) = false ->
  (forall n r, attempt_fails (backend n r)) ->
  (0 <= max_retries)%Z ->
  fst (analyze_resume_with_llm groq_api_key backend prompt max_retries w)
  = API_FAILED.
Proof.
  intros Hkey Hreach Hfail Hpos. rewrite analyze_enters_loop by assumption.
  apply (loop_exhausted groq_api_key backend prompt max_retries Hfail
           (Z.to_nat max_retries) 0%Z w).
  lia.
Qed.

(** C5: with a configured credential, a service recorded as reachable and
    a service that fails on every attempt, [analyze_resume_with_llm] posts
    exactly [max_retries] requests, one after the other, and returns the
    failure value [API_FAILED]; with the default [max_retries] that is three
    requests. *)
Theorem analyze_retry_bound (groq_api_key : option pystr)
    (backend : nat -> request -> outcome json) (prompt : pystr)
    (max_retries : Z) (w : world) :
  key_configured groq_api_key = true ->
  recorded_unreachable (w_session w) = false ->
  (forall n r, attempt_fails (backend n r)) ->
  (0 <= max_retries)%Z ->
  let run := analyze_resume_with_llm groq_api_key backend prompt max_retries w in
  let default_run := analyze groq_api_key backend prompt w in
  fst run = API_FAILED
  /\ Z.of_nat (api_calls (w_trace (snd run))) 
     = (Z.of_nat (api_calls (w_trace w)) + max_retries)%Z
  /\ fst default_run = API_FAILED
  /\ api_calls (w_trace (snd default_run)) = api_calls (w_trace w) + 3.
Proof.
  intros Hkey Hreach Hfail Hpos. cbv zeta. unfold analyze.
  rewrite !analyze_enters_loop by assumption.
  destruct (loop_exhausted groq_api_key backend prompt max_retries Hfail
              (Z.to_nat max_retries) 0%Z w) as (H1 & H2 & _); [lia|].
  destruct (loop_exhausted groq_api_key backend prompt 3 Hfail
              (Z.to_nat 3) 0%Z w) as (H3 & H4 & _); [reflexivity|].
  repeat split; try assumption.
  rewrite H2. lia.
Qed.

Lemma backend_down_fails (n : nat) (r : request) :
  attempt_fails (backend_down n r).
Proof. intros result H. discriminate H. Qed.

Lemma analyze_retry_bound_witness :
  fst (analyze_resume_with_llm (Some (py "gsk_key")) backend_down
         (py "Review this resume") 3 fresh_world) = API_FAILED
  /\ Z.of_nat (api_calls (w_trace (snd (analyze_resume_with_llm
         (Some (py "gsk_key")) backend_down (py "Review this resume") 3
         fresh_world)))) = (Z.of_nat (api_calls (w_trace fresh_world)) + 3)%Z
  /\ fst (analyze (Some (py "gsk_key")) backend_down
            (py "Review this resume") fresh_world) = API_FAILED
  /\ api_calls (w_trace (snd (analyze (Some (py "gsk_key")) backend_down
            (py "Review this resume") fresh_world)))
     = api_calls (w_trace fresh_world) + 3.
Proof.
  apply (analyze_retry_bound (Some (py "gsk_key")) backend_down
           (py "Review this resume") 3 fresh_world).
  - reflexivity.
  - reflexivity.
  - exact backend_down_fails.
  - lia.
Defined.

(** The second guard, lines 264-266. *)
Lemma analyze_degraded (groq_api_key : option pystr)
    (backend : nat -> request -> outcome json) (prompt : pystr)
    (max_retries : Z) (w : world) :
  key_configured groq_api_key = true ->
  recorded_unreachable (w_session w) = true ->
  analyze_resume_with_llm groq_api_key backend prompt max_retries w
  = (API_UNAVAILABLE_MESSAGE,
     {| w_session := w_session w;
        w_trace := w_trace w
          ++ [St Warning (py "🔄 API connection issues detected. Showing manual analysis guidelines.")] |}).
Proof.
  intros Hkey Hdown. unfold analyze_resume_with_llm. rewrite Hkey.
  cbn [negb]. unfold bind at 1. unfold get_session.
  unfold recorded_unreachable in Hdown. rewrite Hdown. reflexivity.
Qed.

(** C7: [analyze_resume_with_llm] posts no request when it short-circuits.
    Without a configured credential it returns the missing-credential
    message at once and leaves the world as it was.  With a credential and
    a session in which the health probe recorded the service as
    unreachable it returns the degraded message at once, having only
    written a warning.  The last part ties the record to the probe itself:
    a probe that records the service as unreachable was run with a
    credential, so the call that follows it is degraded. *)
Theorem analyze_short_circuits (groq_api_key : option pystr)
    (backend : nat -> request -> outcome json) (prompt : pystr)
    (max_retries : Z) (w : world) :
  (key_configured groq_api_key = false ->
     analyze_resume_with_llm groq_api_key backend prompt max_retries w
     = (NO_KEY_MESSAGE, w))
  /\ (key_configured groq_api_key = true ->
      recorded_unreachable (w_session w) = true ->
      let run := analyze_resume_with_llm groq_api_key backend prompt
                   max_retries w in
      fst run = API_UNAVAILABLE_MESSAGE
      /\ api_calls (w_trace (snd run)) = api_calls (w_trace w)
      /\ w_session (snd run) = w_session w)
  /\ (api_tested (w_session w) = None ->
      let probed := snd (health_probe groq_api_key backend w) in
      recorded_unreachable (w_session probed) = true ->
      let run := analyze_resume_with_llm groq_api_key backend prompt
                   max_retries probed in
      fst run = API_UNAVAILABLE_MESSAGE
      /\ api_calls (w_trace (snd run)) = api_calls (w_trace probed)).
Proof.
  assert (Hdegraded : forall w',
    key_configured groq_api_key = true ->
    recorded_unreachable (w_session w') = true ->
    let run := analyze_resume_with_llm groq_api_key backend prompt
                 max_retries w' in
    fst run = API_UNAVAILABLE_MESSAGE
    /\ api_calls (w_trace (snd run)) = api_calls (w_trace w')
    /\ w_session (snd run) = w_session w').
  { intros w' Hkey Hdown. cbv zeta.
    rewrite (analyze_degraded groq_api_key backend prompt max_retries w' Hkey Hdown).
    cbn [fst snd w_trace w_session]. rewrite api_calls_st. repeat split. }
  split; [|split].
  - intros Hkey. unfold analyze_resume_with_llm. rewrite Hkey. reflexivity.
  - apply Hdegraded.
  - intros Hfresh. cbv zeta. intros Hdown.
    destruct (key_configured groq_api_key) eqn:Hkey.
    + destruct (Hdegraded (snd (health_probe groq_api_key backend w)) eq_refl Hdown)
        as (H1 & H2 & _). split; assumption.
    + exfalso. unfold health_probe in Hdown. rewrite Hfresh, Hkey in Hdown.
      cbn [snd] in Hdown. unfold recorded_unreachable in Hdown.
      rewrite Hfresh in Hdown. discriminate Hdown.
Qed.

Lemma analyze_short_circuits_witness :
  analyze_resume_with_llm None backend_down (py "Review this resume") 3
    fresh_world = (NO_KEY_MESSAGE, fresh_world)
  /\ fst (analyze_resume_with_llm (Some (py "gsk_key")) backend_down
            (py "Review this resume") 3
            {| w_session := session_down; w_trace := [] |})
     = API_UNAVAILABLE_MESSAGE
  /\ api_calls (w_trace (snd (analyze_resume_with_llm (Some (py "gsk_key"))
            backend_down (py "Review this resume") 3
            (snd (health_probe (Some (py "gsk_key")) backend_down fresh_world)))))
     = 1.
Proof.
  split; [|split].
  - destruct (analyze_short_circuits None backend_down
                (py "Review this resume") 3 fresh_world) as (H & _ & _).
    apply H. reflexivity.
  - destruct (analyze_short_circuits (Some (py "gsk_key")) backend_down
                (py "Review this resume") 3
                {| w_session := session_down; w_trace := [] |}) as (_ & H & _).
    destruct (H eq_refl eq_refl) as (H1 & _). exact H1.
  - destruct (analyze_short_circuits (Some (py "gsk_key")) backend_down
                (py "Review this resume") 3 fresh_world) as (_ & _ & H).
    destruct (H eq_refl eq_refl) as (_ & H2). rewrite H2. reflexivity.
Defined.

Section RecordedAttempts.

Variable groq_api_key : option pystr.
Variable backend : nat -> request -> outcome json.
Variable prompt : pystr.
Variable max_retries : Z.

Let req := analysis_request groq_api_key prompt.
Let loop := retry_loop groq_api_key backend prompt max_retries.

(** [failed_attempts] counts the attempts before the first accepted one. *)
Lemma failed_attempts_spec (todo : nat) :
  forall call,
    let failed := failed_attempts backend req call todo in
    failed <= todo
    /\ (forall i, i < failed -> attempt_fails (backend (call + i) req))
    /\ (failed < todo ->
        exists result,
          obind (backend (call + failed) req) read_completion
          = Returned (Some result)).
Proof.
  induction todo as [|todo IH]; intros call; cbv zeta.
  - cbn. split; [lia|]. split; intros; lia.
  - cbn [failed_attempts].
    destruct (IH (S call)) as (Hle & Hfail & Hnext).
    destruct (obind (backend call req) read_completion) as [[result|]|e]
      eqn:Hres.
    + split; [lia|]. split; [intros i Hi; lia|].
      intros _. exists result. rewrite Nat.add_0_r. exact Hres.
    + split; [lia|]. split.
      * intros [|i] Hi.
        -- rewrite Nat.add_0_r. intros result H. rewrite Hres in H.
           discriminate H.
        -- replace (call + S i) with (S call + i) by lia.
           apply Hfail. lia.
      * intros Hlt.
        replace (call + S (failed_attempts backend req (S call) todo))
          with (S call + failed_attempts backend req (S call) todo) by lia.
        apply Hnext. lia.
    + split; [lia|]. split.
      * intros [|i] Hi.
        -- rewrite Nat.add_0_r. intros result H. rewrite Hres in H.
           discriminate H.
        -- replace (call + S i) with (S call + i) by lia.
           apply Hfail. lia.
      * intros Hlt.
        replace (call + S (failed_attempts backend req (S call) todo))
          with (S call + failed_attempts backend req (S call) todo) by lia.
        apply Hnext. lia.
Qed.

(** When every attempt fails, all of them are counted. *)
Lemma failed_attempts_all (todo : nat) :
  forall call,
    (forall i, i < todo -> attempt_fails (backend (call + i) req)) ->
    failed_attempts backend req call todo = todo.
Proof.
  induction todo as [|todo IH]; intros call Hfail; [reflexivity|].
  cbn [failed_attempts].
  assert (Hrest : failed_attempts backend req (S call) todo = todo).
  { apply IH. intros i Hi.
    replace (S call + i) with (call + S i) by lia. apply Hfail. lia. }
  pose proof (Hfail 0 ltac:(lia)) as H0. rewrite Nat.add_0_r in H0.
  destruct (obind (backend call req) read_completion) as [[result|]|e]
    eqn:Hres.
  - exfalso. exact (H0 result Hres).
  - rewrite Hrest. reflexivity.
  - rewrite Hrest. reflexivity.
Qed.

(** Any run of the loop, started with [todo] turns left where the last
    turn has index [max_retries - 1]: what it records, and how it ends. *)
Lemma loop_records (todo : nat) :
  forall (attempt : Z) (w : world),
    (Z.of_nat todo + attempt = max_retries)%Z ->
    let failed := failed_attempts backend req (api_calls (w_trace w)) todo in
    let records :=
      expected_records backend req (api_calls (w_trace w)) attempt failed in
    recorded_errors (w_trace (snd (loop todo attempt w)))
    = recorded_errors (w_trace w) ++ records
    /\ last_groq_error (w_session (snd (loop todo attempt w)))
       = fold_left (fun _ r => Some r) records
           (last_groq_error (w_session w))
    /\ (failed < todo ->
        obind (backend (api_calls (w_trace w) + failed) req) read_completion
        = Returned (Some (fst (loop todo attempt w))))
    /\ (failed = todo -> fst (loop todo attempt w) = API_FAILED)
    /\ (forall e,
          failed = todo -> 0 < todo ->
          attempt_error (backend (api_calls (w_trace w) + (todo - 1)) req)
          = Some e ->
          In (St Error (py "❌ Analysis failed: "
                        ++ error_record (max_retries - 1) e))
             (w_trace (snd (loop todo attempt w)))).
Proof.
  induction todo as [|todo IH]; intros attempt w Hinv; cbv zeta.
  - cbn. rewrite app_nil_r. repeat split; intros; lia.
  - unfold loop. rewrite loop_step. fold loop. fold req. cbv zeta.
    cbn [failed_attempts].
    destruct (obind (backend (api_calls (w_trace w)) req) read_completion)
      as [[result|]|e] eqn:Hres.
    + cbn [expected_records fst snd w_trace w_session fold_left].
      autorewrite with trace. rewrite app_nil_r, Nat.add_0_r.
      split; [reflexivity|]. split; [reflexivity|].
      split; [intros _; exact Hres|].
      split; [intros H; discriminate H|intros e H; discriminate H].
    + match goal with |- context [loop todo ?a ?w'] =>
        specialize (IH a w') end.
      cbv zeta in IH. cbn [w_session w_trace] in IH.
      autorewrite with trace in IH.
      destruct IH as (H1 & H2 & H3 & H4 & H5); [lia|].
      assert (Herr : attempt_error (backend (api_calls (w_trace w)) req)
                     = None)
        by (unfold attempt_error; rewrite Hres; reflexivity).
      cbn [expected_records]. rewrite Herr. cbn [app].
      split; [exact H1|]. split; [exact H2|]. split; [|split].
      * intros Hlt.
        replace (api_calls (w_trace w)
                 + S (failed_attempts backend req (S (api_calls (w_trace w)))
                        todo))
          with (S (api_calls (w_trace w))
                + failed_attempts backend req (S (api_calls (w_trace w))) todo)
          by lia.
        apply H3. lia.
      * intros Hall. apply H4. lia.
      * intros e Hall _ He. destruct todo as [|todo'].
        -- rewrite Nat.add_0_r in He. unfold attempt_error in He.
           rewrite Hres in He. discriminate He.
        -- apply H5; [lia|lia|]. rewrite <- He. f_equal. f_equal. lia.
    + cbv zeta. cbn [w_session w_trace].
      assert (Herr : attempt_error (backend (api_calls (w_trace w)) req)
                     = Some e)
        by (unfold attempt_error; rewrite Hres; reflexivity).
      cbn [expected_records]. rewrite Herr.
      destruct (attempt <? max_retries - 1)%Z eqn:Hlast.
      * match goal with |- context [loop todo ?a ?w'] =>
          specialize (IH a w') end.
        cbv zeta in IH. cbn [w_session w_trace last_groq_error] in IH.
        autorewrite with trace in IH.
        destruct IH as (H1 & H2 & H3 & H4 & H5); [lia|].
        cbn [app fold_left].
        split; [rewrite H1, <- app_assoc; reflexivity|].
        split; [exact H2|]. split; [|split].
        -- intros Hlt.
           replace (api_calls (w_trace w)
                    + S (failed_attempts backend req
                           (S (api_calls (w_trace w))) todo))
             with (S (api_calls (w_trace w))
                   + failed_attempts backend req
                       (S (api_calls (w_trace w))) todo)
             by lia.
           apply H3. lia.
        -- intros Hall. apply H4. lia.
        -- intros e' Hall _ He. apply Z.ltb_lt in Hlast.
           destruct todo as [|todo']; [lia|].
           apply H5; [lia|lia|]. rewrite <- He. f_equal. f_equal. lia.
      * apply Z.ltb_ge in Hlast.
        assert (todo = 0) by lia. subst todo.
        match goal with |- context [report_failure ?w'] =>
          destruct (report_failure_spec w') as (msgs & -> & Hc & Hr & Hhd) end.
        cbn [fst snd w_session w_trace last_groq_error failed_attempts
             expected_records app fold_left get_default] in *.
        rewrite (recorded_errors_app _ msgs), Hr.
        autorewrite with trace. rewrite !app_nil_r.
        split; [reflexivity|]. split; [reflexivity|].
        split; [intros Hlt; lia|]. split; [reflexivity|].
        intros e' _ _ He. rewrite Nat.add_0_r in He.
        unfold attempt_error in He. rewrite Hres in He. injection He as <-.
        apply in_or_app. right.
        destruct msgs as [|m msgs]; [discriminate Hhd|].
        injection Hhd as ->. left.
        replace (max_retries - 1)%Z with attempt by lia. reflexivity.
Qed.

End RecordedAttempts.

(** C6 (as the code has it): in every run, whatever the service does,
    every attempt that ends with an exception is recorded, with its number
    and error text, in the session entry [_last_groq_error], each record
    replacing the one before; the attempts of the run are the ones before
    the first accepted completion, whose text the call then returns.  When
    all attempts are used up the call returns the fixed value
    [API_FAILED]; the session entry then holds the record of the most
    recent attempt that raised, and when the final attempt raised, its
    record is shown in the error message. *)
Theorem failed_attempts_recorded (groq_api_key : option pystr)
    (backend : nat -> request -> outcome json) (prompt : pystr)
    (max_retries : Z) (w : world) :
  key_configured groq_api_key = true ->
  recorded_unreachable (w_session w) = false ->
  (0 < max_retries)%Z ->
  let r := analysis_request groq_api_key prompt in
  let run := analyze_resume_with_llm groq_api_key backend prompt max_retries w in
  let failed :=
    failed_attempts backend r (api_calls (w_trace w)) (Z.to_nat max_retries) in
  let records := expected_records backend r (api_calls (w_trace w)) 0 failed in
  recorded_errors (w_trace (snd run)) = recorded_errors (w_trace w) ++ records
  /\ last_groq_error (w_session (snd run))
     = fold_left (fun _ v => Some v) records (last_groq_error (w_session w))
  /\ (failed < Z.to_nat max_retries ->
      obind (backend (api_calls (w_trace w) + failed) r) read_completion
      = Returned (Some (fst run)))
  /\ ((forall i, i < Z.to_nat max_retries ->
         attempt_fails (backend (api_calls (w_trace w) + i) r)) ->
      failed = Z.to_nat max_retries
      /\ fst run = API_FAILED
      /\ forall e,
           attempt_error
             (backend (api_calls (w_trace w) + (Z.to_nat max_retries - 1)) r)
           = Some e ->
           In (St Error (py "❌ Analysis failed: "
                         ++ error_record (max_retries - 1) e))
              (w_trace (snd run))).
Proof.
  intros Hkey Hreach Hpos. cbv zeta.
  rewrite analyze_enters_loop by assumption.
  destruct (loop_records groq_api_key backend prompt max_retries
              (Z.to_nat max_retries) 0%Z w) as (H1 & H2 & H3 & H4 & H5);
    [lia|].
  split; [exact H1|]. split; [exact H2|]. split; [exact H3|].
  intros Hfail.
  pose proof (failed_attempts_all groq_api_key backend prompt
                (Z.to_nat max_retries) (api_calls (w_trace w)) Hfail) as Hall.
  split; [exact Hall|]. split; [exact (H4 Hall)|].
  intros e He. apply (H5 e Hall); [lia|exact He].
Qed.

Lemma failed_attempts_recorded_witness :
  let key := Some (py "gsk_key") in
  let prompt := py "Review this resume" in
  let r := analysis_request key prompt in
  let run := analyze_resume_with_llm key backend_recovers prompt 3 fresh_world in
  let failed :=
    failed_attempts backend_recovers r (api_calls (w_trace fresh_world))
      (Z.to_nat 3) in
  let records :=
    expected_records backend_recovers r (api_calls (w_trace fresh_world)) 0
      failed in
  recorded_errors (w_trace (snd run))
  = recorded_errors (w_trace fresh_world) ++ records
  /\ last_groq_error (w_session (snd run))
     = fold_left (fun _ v => Some v) records
         (last_groq_error (w_session fresh_world))
  /\ (failed < Z.to_nat 3 ->
      obind (backend_recovers (api_calls (w_trace fresh_world) + failed) r)
        read_completion
      = Returned (Some (fst run)))
  /\ ((forall i, i < Z.to_nat 3 ->
         attempt_fails
           (backend_recovers (api_calls (w_trace fresh_world) + i) r)) ->
      failed = Z.to_nat 3
      /\ fst run = API_FAILED
      /\ forall e,
           attempt_error
             (backend_recovers
                (api_calls (w_trace fresh_world) + (Z.to_nat 3 - 1)) r)
           = Some e ->
           In (St Error (py "❌ Analysis failed: " ++ error_record (3 - 1) e))
              (w_trace (snd run))).
Proof.
  exact (failed_attempts_recorded (Some (py "gsk_key")) backend_recovers
           (py "Review this resume") 3 fresh_world eq_refl eq_refl eq_refl).
Defined.

(** A run that is not used up: the first two attempts raise and are
    recorded, the third one is accepted. *)
Example records_when_recovering :
  let run := analyze_resume_with_llm (Some (py "gsk_key")) backend_recovers
               (py "Review this resume") 3 fresh_world in
  fst run = py "OK, detailed analysis..."
  /\ recorded_errors (w_trace (snd run))
     = [py "Attempt 1: Connection refused"; py "Attempt 2: Connection refused"]
  /\ last_groq_error (w_session (snd run))
     = Some (py "Attempt 2: Connection refused").
Proof.
  cbv zeta. split; [vm_compute; reflexivity|].
  split; vm_compute; reflexivity.
Qed.

Example records_when_down :
  let run := analyze_resume_with_llm (Some (py "gsk_key")) backend_down
               (py "Review this resume") 3 fresh_world in
  recorded_errors (w_trace (snd run))
  = [py "Attempt 1: Connection refused"; py "Attempt 2: Connection refused";
     py "Attempt 3: Connection refused"]
  /\ last_groq_error (w_session (snd run))
     = Some (py "Attempt 3: Connection refused")
  /\ In (St Error (py "❌ Analysis failed: Attempt 3: Connection refused"))
        (w_trace (snd run)).
Proof.
  cbv zeta. split; [vm_compute; reflexivity|]. split; [vm_compute; reflexivity|].
  vm_compute. tauto.
Qed.

(** C6 fails as stated.  With the service down, the most recent attempt
    failed with "Connection refused", but the value returned is the bare
    [API_FAILED].  With a service that rejects the key, all three attempts
    fail and none of them is recorded. *)
Lemma failure_carries_no_error_text :
  let down := analyze_resume_with_llm (Some (py "gsk_key")) backend_down
                (py "Review this resume") 3 fresh_world in
  let rejected := analyze_resume_with_llm (Some (py "gsk_key")) backend_rejects
                    (py "Review this resume") 3 fresh_world in
  (attempt_error (backend_down 2 (analysis_request (Some (py "gsk_key"))
                                    (py "Review this resume")))
   = Some (LibraryError (py "Connection refused"))
   /\ fst down = API_FAILED
   /\ contains (py "Connection refused") (fst down) = false)
  /\ ((forall n r, attempt_fails (backend_rejects n r))
      /\ fst rejected = API_FAILED
      /\ api_calls (w_trace (snd rejected)) = 3
      /\ recorded_errors (w_trace (snd rejected)) = []
      /\ last_groq_error (w_session (snd rejected)) = None).
Proof.
  cbv zeta. split.
  - repeat split; vm_compute; reflexivity.
  - split.
    + intros n r result H. vm_compute in H. discriminate H.
    + repeat split; vm_compute; reflexivity.
Qed.

(** C9 (as the code has it): when the first response is well formed and the
    stripped completion is longer than ten characters, the call returns the
    completion stripped of the whitespace around it, after exactly one
    request: no retry, no recorded error, no message. *)
Theorem analyze_first_attempt_success (groq_api_key : option pystr)
    (backend : nat -> request -> outcome json) (prompt : pystr)
    (max_retries : Z) (w : world) (response : json) (content : pystr) :
  key_configured groq_api_key = true ->
  recorded_unreachable (w_session w) = false ->
  (0 < max_retries)%Z ->
  backend (api_calls (w_trace w)) (analysis_request groq_api_key prompt)
  = Returned response ->
  completion_field response = Some (JStr content) ->
  10 < List.length (strip content) ->
  analyze_resume_with_llm groq_api_key backend prompt max_retries w
  = (strip content,
     {| w_session := w_session w;
        w_trace := w_trace w ++ [Api_call (analysis_request groq_api_key prompt)] |}).
Proof.
  intros Hkey Hreach Hpos Hresp Hfield Hlen.
  rewrite analyze_enters_loop by assumption.
  destruct (Z.to_nat max_retries) as [|todo] eqn:Htodo; [lia|].
  rewrite loop_step, Hresp. cbn [obind].
  rewrite (read_completion_well_formed response content Hfield Hlen).
  reflexivity.
Qed.

Lemma analyze_first_attempt_success_witness :
  analyze_resume_with_llm (Some (py "gsk_key"))
    (fun _ _ => Returned (completion_response (py "OK, detailed analysis...")))
    (py "Review this resume") 3 fresh_world
  = (py "OK, detailed analysis...",
     {| w_session := fresh_session;
        w_trace := [Api_call (analysis_request (Some (py "gsk_key"))
                                (py "Review this resume"))] |}).
Proof.
  apply (analyze_first_attempt_success (Some (py "gsk_key"))
           (fun _ _ => Returned (completion_response (py "OK, detailed analysis...")))
           (py "Review this resume") 3 fresh_world
           (completion_response (py "OK, detailed analysis..."))
           (py "OK, detailed analysis...")).
  - reflexivity.
  - reflexivity.
  - lia.
  - reflexivity.
  - reflexivity.
  - vm_compute. lia.
Defined.

(** C9 fails as stated: a completion with a blank on each side meets the
    condition, and what is returned is not that completion. *)
Lemma success_returns_stripped_content :
  let content := py " OK, detailed analysis... " in
  let response := completion_response content in
  completion_field response = Some (JStr content)
  /\ 10 < List.length (strip content)
  /\ fst (analyze_resume_with_llm (Some (py "gsk_key"))
            (fun _ _ => Returned response) (py "Review this resume") 3
            fresh_world) <> content.
Proof.
  cbv zeta. split; [reflexivity|]. split; [vm_compute; lia|].
  intros H. vm_compute in H. discriminate H.
Qed.

(* ================================================================== *)
(** * The requests of the Results page *)
(* ================================================================== *)

Lemma requests_app (t u : list event) :
  requests (t ++ u) = requests t ++ requests u.
Proof. unfold requests. apply flat_map_app. Qed.

Section PageRequests.

Variable groq_api_key : option pystr.
Variable backend : nat -> request -> outcome json.

Lemma posts_ret {A} (a : A) (w : world) : posts groq_api_key (ret a) w [].
Proof. unfold posts. cbn. symmetry. apply app_nil_r. Qed.

Lemma posts_emit_st (l : level) (msg : pystr) (w : world) :
  posts groq_api_key (emit (St l msg)) w [].
Proof.
  unfold posts, emit. cbn [snd w_trace map]. rewrite requests_app.
  reflexivity.
Qed.

Lemma posts_bind {A B} (m : M A) (k : A -> M B) (w : world)
    (ps qs : list pystr) :
  posts groq_api_key m w ps ->
  posts groq_api_key (k (fst (m w))) (snd (m w)) qs ->
  posts groq_api_key (bind m k) w (ps ++ qs).
Proof.
  unfold posts, bind. intros Hm Hk. destruct (m w) as [a w1].
  cbn [fst snd] in *. rewrite Hk, Hm, map_app, app_assoc. reflexivity.
Qed.

Lemma posts_warning_then {A} (msg : pystr) (a : A) (w : world) :
  posts groq_api_key (bind (st_warning msg) (fun _ => ret a)) w [].
Proof.
  apply (posts_bind (st_warning msg) (fun _ => ret a) w [] []);
    [apply posts_emit_st|apply posts_ret].
Qed.

Lemma posts_info_then {A} (msg : pystr) (a : A) (w : world) :
  posts groq_api_key (bind (st_info msg) (fun _ => ret a)) w [].
Proof.
  apply (posts_bind (st_info msg) (fun _ => ret a) w [] []);
    [apply posts_emit_st|apply posts_ret].
Qed.

Lemma retry_loop_posts (prompt : pystr) (max_retries : Z) (todo : nat) :
  forall (attempt : Z) (w : world),
  exists n,
    posts groq_api_key
      (retry_loop groq_api_key backend prompt max_retries todo attempt) w
      (repeat prompt n).
Proof.
  induction todo as [|todo IH]; intros attempt w.
  - exists 0. apply posts_ret.
  - unfold posts. rewrite loop_step. cbv zeta.
    destruct (obind (backend (api_calls (w_trace w))
                       (analysis_request groq_api_key prompt)) read_completion)
      as [[result|]|e].
    + exists 1. cbn [snd w_trace]. rewrite requests_app. reflexivity.
    + match goal with |- context [retry_loop _ _ _ _ todo ?a ?w'] =>
        destruct (IH a w') as (n & Hn) end.
      exists (S n). unfold posts in Hn. rewrite Hn. cbn [w_trace].
      rewrite requests_app, <- app_assoc. reflexivity.
    + destruct (attempt <? max_retries - 1)%Z.
      * match goal with |- context [retry_loop _ _ _ _ todo ?a ?w'] =>
          destruct (IH a w') as (n & Hn) end.
        exists (S n). unfold posts in Hn. rewrite Hn. cbn [w_trace].
        rewrite !requests_app, <- !app_assoc. reflexivity.
      * match goal with |- context [report_failure ?w'] =>
          destruct (report_failure_spec w') as (msgs & -> & Hc & _) end.
        exists 1. cbn [snd w_trace]. rewrite !requests_app.
        assert (Hmsgs : requests msgs = []).
        { unfold api_calls in Hc. unfold requests.
          induction msgs as [|m msgs IHm]; [reflexivity|].
          cbn [filter flat_map] in *.
          destruct m; cbn [is_api_call] in Hc; try discriminate Hc;
            cbn [app]; apply IHm; exact Hc. }
        rewrite Hmsgs, <- !app_assoc. reflexivity.
Qed.

Lemma analyze_posts (prompt : pystr) (max_retries : Z) (w : world) :
  exists n,
    posts groq_api_key (analyze_resume_with_llm groq_api_key backend prompt max_retries) w
      (repeat prompt n).
Proof.
  unfold analyze_resume_with_llm.
  destruct (key_configured groq_api_key); cbn [negb];
    [|exists 0; apply posts_ret].
  unfold posts, bind, get_session.
  destruct (get_default (api_tested (w_session w)) false
            && negb (get_default (api_working (w_session w)) true)).
  - exists 0. unfold st_warning, emit, ret. cbn [snd w_trace map repeat].
    rewrite requests_app. reflexivity.
  - apply retry_loop_posts.
Qed.

Lemma complete_loop_posts (steps : list (pystr * pystr))
    (resume_text job_description : pystr) :
  forall (report_data : list (pystr * pystr)) (panels : list shown) (w : world),
  exists ps,
    posts groq_api_key (complete_loop groq_api_key backend steps resume_text job_description
             report_data panels) w ps
    /\ incl ps (step_prompts steps resume_text job_description).
Proof.
  induction steps as [|[step_name step_key] steps IH];
    intros report_data panels w.
  - exists []. split; [apply posts_ret|apply incl_refl].
  - cbn [complete_loop step_prompts flat_map snd].
    fold (step_prompts steps resume_text job_description).
    destruct (step_options step_key) as [|first_option others].
    + destruct (IH report_data panels w) as (ps & Hps & Hincl).
      exists ps. split; [exact Hps|exact Hincl].
    + destruct (dict_get analysis_options first_option) as [entry|].
      * set (p := full_prompt_complete (prompt entry) resume_text
                    job_description).
        destruct (analyze_posts p 3 w) as (n & Hn).
        match goal with |- context [bind _ ?k] =>
          set (rest := k) end.
        destruct (IH
          (dict_set report_data step_name (fst (analyze groq_api_key backend p w)))
          (panels ++ [{| result_text := fst (analyze groq_api_key backend p w);
                         panel_markup :=
                           format_analysis_result
                             (fst (analyze groq_api_key backend p w)) |}])
          (snd (analyze groq_api_key backend p w))) as (ps & Hps & Hincl).
        exists (repeat p n ++ ps). split.
        -- apply posts_bind; [exact Hn|exact Hps].
        -- apply incl_app.
           ++ intros q Hq. apply repeat_spec in Hq. subst q.
              apply in_or_app. left. left. reflexivity.
           ++ apply incl_appr. exact Hincl.
      * exists []. split; [apply posts_ret|apply incl_nil_l].
Qed.

Lemma single_analysis_posts
    (analysis_type resume_text job_description : pystr) (w : world) :
  exists ps,
    posts groq_api_key (single_analysis groq_api_key backend analysis_type resume_text
             job_description) w ps
    /\ incl ps
         match dict_get analysis_options analysis_type with
         | Some prompt_data =>
             [full_prompt (prompt prompt_data) resume_text job_description]
         | None => []
         end.
Proof.
  unfold single_analysis.
  destruct (dict_get analysis_options analysis_type) as [prompt_data|].
  - set (p := full_prompt (prompt prompt_data) resume_text job_description).
    destruct (analyze_posts p 3 w) as (n & Hn).
    exists (repeat p n ++ ([] ++ [])). split.
    + apply posts_bind; [exact Hn|]. apply posts_bind; [|apply posts_ret].
      destruct (pystr_eqb (fst (analyze groq_api_key backend p w)) API_FAILED).
      * apply posts_warning_then.
      * apply posts_ret.
    + cbn [app]. rewrite app_nil_r. intros q Hq.
      apply repeat_spec in Hq. subst q. left. reflexivity.
  - exists []. split; [apply posts_ret|apply incl_nil_l].
Qed.

(** Every request the Results page posts carries one of the built
    prompts. *)
Lemma results_page_posts
    (resume_text job_description selected_analysis : pystr) (w : world) :
  exists ps,
    posts groq_api_key (results_page groq_api_key backend resume_text job_description
             selected_analysis) w ps
    /\ incl ps (built_prompts selected_analysis resume_text job_description).
Proof.
  unfold results_page, built_prompts.
  destruct (truthy resume_text); cbn [negb].
  2:{ exists []. split; [apply posts_warning_then|apply incl_nil_l]. }
  destruct (truthy job_description); cbn [negb].
  2:{ exists []. split; [apply posts_warning_then|apply incl_nil_l]. }
  destruct (truthy selected_analysis).
  2:{ exists []. split; [apply posts_info_then|apply incl_nil_l]. }
  destruct (pystr_eqb selected_analysis COMPLETE_ANALYSIS).
  - destruct (complete_loop_posts analysis_steps resume_text job_description
                [] [] w) as (ps & Hps & Hincl).
    exists (ps ++ []). split.
    + apply posts_bind; [exact Hps|apply posts_ret].
    + rewrite app_nil_r. exact Hincl.
  - apply single_analysis_posts.
Qed.

End PageRequests.

(* ================================================================== *)
(** * Properties of the prompt builder *)
(* ================================================================== *)

Lemma built_prompts_frames (analysis_type resume_text job_description : pystr) :
  built_prompts analysis_type resume_text job_description
  = map (fill (firstn 4000 resume_text))
        (prompt_frames analysis_type job_description).
Proof.
  unfold built_prompts, prompt_frames, step_prompts.
  destruct (pystr_eqb analysis_type COMPLETE_ANALYSIS).
  - induction analysis_steps as [|step steps IH]; [reflexivity|].
    cbn [flat_map]. rewrite map_app, IH. f_equal.
    destruct (step_options (snd step)) as [|first_option ?]; [reflexivity|].
    destruct (dict_get analysis_options first_option); [|reflexivity].
    unfold full_prompt_complete, fill. cbn [map fst snd].
    rewrite <- !app_assoc. reflexivity.
  - destruct (dict_get analysis_options analysis_type); [|reflexivity].
    unfold full_prompt, fill. cbn [map fst snd].
    rewrite <- !app_assoc. reflexivity.
Qed.

(** C8: for a resume longer than 4000 characters and each of the five
    analysis kinds, every prompt that is built consists of a text that does
    not depend on the resume, then exactly the first 4000 characters of the
    resume, then again a text that does not depend on the resume; so nothing
    of the resume past position 4000 reaches the prompt.  At least one
    prompt is built for each kind, and every request the Results page posts
    carries one of these prompts. *)
Theorem prompt_truncates_resume (analysis_type resume_text job_description : pystr) :
  In analysis_type (dict_keys analysis_options) ->
  4000 < List.length resume_text ->
  built_prompts analysis_type resume_text job_description
  = map (fill (firstn 4000 resume_text))
        (prompt_frames analysis_type job_description)
  /\ prompt_frames analysis_type job_description <> []
  /\ List.length (firstn 4000 resume_text) = 4000
  /\ built_prompts analysis_type resume_text job_description
     = built_prompts analysis_type (firstn 4000 resume_text) job_description
  /\ forall groq_api_key backend w,
       exists ps,
         posts groq_api_key
           (results_page groq_api_key backend resume_text job_description
              analysis_type) w ps
         /\ incl ps (built_prompts analysis_type resume_text job_description).
Proof.
  intros Hkind Hlong. split; [apply built_prompts_frames|].
  split; [|split; [|split]].
  - cbn in Hkind.
    destruct Hkind as [<-|[<-|[<-|[<-|[<-|[]]]]]]; vm_compute; discriminate.
  - apply firstn_length_le. lia.
  - rewrite !built_prompts_frames, firstn_firstn, Nat.min_id. reflexivity.
  - intros groq_api_key backend w. apply results_page_posts.
Qed.

Lemma prompt_truncates_resume_witness :
  let resume_text := repeat 97%N 4001 in
  let job_description := py "Data Analyst" in
  built_prompts (py "Job Matching") resume_text job_description
  = map (fill (firstn 4000 resume_text))
        (prompt_frames (py "Job Matching") job_description)
  /\ prompt_frames (py "Job Matching") job_description <> []
  /\ List.length (firstn 4000 resume_text) = 4000
  /\ built_prompts (py "Job Matching") resume_text job_description
     = built_prompts (py "Job Matching") (firstn 4000 resume_text)
         job_description
  /\ forall groq_api_key backend w,
       exists ps,
         posts groq_api_key
           (results_page groq_api_key backend resume_text job_description
              (py "Job Matching")) w ps
         /\ incl ps (built_prompts (py "Job Matching") resume_text
                       job_description).
Proof.
  apply (prompt_truncates_resume (py "Job Matching") (repeat 97%N 4001)
           (py "Data Analyst")).
  - vm_compute. tauto.
  - rewrite repeat_length. lia.
Defined.

Example complete_analysis_builds_four_prompts :
  List.length (built_prompts COMPLETE_ANALYSIS (py "resume") (py "job")) = 4
  /\ map step_options (map snd analysis_steps)
     = [[py "Quick Overview"]; [py "Issues Analysis"];
        [py "Enhancement Tips"]; [py "Job Matching"]].
Proof. split; reflexivity. Qed.

(* ================================================================== *)
(** * Properties of the Results page *)
(* ================================================================== *)

Lemma pystr_eqb_refl (s : pystr) : pystr_eqb s s = true.
Proof.
  induction s as [|c s IH]; [reflexivity|].
  cbn [pystr_eqb]. rewrite N.eqb_refl. exact IH.
Qed.

(** What is known of each key of the guidance library. *)
Lemma guidance_kinds (analysis_type : pystr) :
  In analysis_type (dict_keys provide_manual_analysis_tips) ->
  exists tip entry,
    dict_get provide_manual_analysis_tips analysis_type = Some tip
    /\ dict_get analysis_options analysis_type = Some entry
    /\ pystr_eqb analysis_type COMPLETE_ANALYSIS = false
    /\ truthy analysis_type = true
    /\ truthy (format_analysis_result tip) = true
    /\ pystr_eqb tip API_FAILED
       || contains (py "API temporarily unavailable") tip = false.
Proof.
  intros Hkind. cbn in Hkind.
  destruct Hkind as [<-|[<-|[<-|[<-|[]]]]];
    (eexists; eexists; split; [reflexivity|]; split; [reflexivity|];
     repeat split; vm_compute; reflexivity).
Qed.

Lemma built_prompts_single (analysis_type resume_text job_description : pystr)
    (entry : option_entry) :
  pystr_eqb analysis_type COMPLETE_ANALYSIS = false ->
  dict_get analysis_options analysis_type = Some entry ->
  built_prompts analysis_type resume_text job_description
  = [full_prompt (prompt entry) resume_text job_description].
Proof.
  intros Hsingle Hentry. unfold built_prompts. rewrite Hsingle, Hentry.
  reflexivity.
Qed.

(** Lines 711-714: a failed call is replaced by the guidance text of the
    kind, or by that of Quick Overview for a kind without one. *)
Lemma single_analysis_failed (groq_api_key : option pystr)
    (backend : nat -> request -> outcome json)
    (analysis_type resume_text job_description : pystr) (w : world)
    (entry : option_entry) :
  dict_get analysis_options analysis_type = Some entry ->
  fst (analyze groq_api_key backend
         (full_prompt (prompt entry) resume_text job_description) w)
  = API_FAILED ->
  let tip :=
    get_default (dict_get provide_manual_analysis_tips analysis_type)
      (get_default (dict_get provide_manual_analysis_tips (py "Quick Overview")) []) in
  fst (single_analysis groq_api_key backend analysis_type resume_text
         job_description w)
  = Single_view (Some {| result_text := tip;
                         panel_markup := format_analysis_result tip |})
      (pystr_eqb tip API_FAILED
       || contains (py "API temporarily unavailable") tip).
Proof.
  intros Hentry Hfailed. cbv zeta. unfold single_analysis. rewrite Hentry.
  unfold bind at 1.
  destruct (analyze groq_api_key backend
              (full_prompt (prompt entry) resume_text job_description) w)
    as [result w1].
  cbn [fst] in Hfailed. subst result. rewrite pystr_eqb_refl.
  reflexivity.
Qed.

(** C2 (as the code has it): there are four guidance texts, one for each of
    Quick Overview, Issues Analysis, Enhancement Tips and Job Matching.  On
    the single-analysis branch, whenever the call for one of these kinds
    returns [API_FAILED], the page keeps that kind's guidance text as the
    result and shows it, formatted, in the panel; the panel is not empty. *)
Theorem failure_maps_to_guidance (groq_api_key : option pystr)
    (backend : nat -> request -> outcome json)
    (analysis_type resume_text job_description : pystr) (w : world) :
  In analysis_type (dict_keys provide_manual_analysis_tips) ->
  truthy resume_text = true ->
  truthy job_description = true ->
  (forall p, In p (built_prompts analysis_type resume_text job_description) ->
             fst (analyze groq_api_key backend p w) = API_FAILED) ->
  exists tip,
    dict_get provide_manual_analysis_tips analysis_type = Some tip
    /\ fst (results_page groq_api_key backend resume_text job_description
              analysis_type w)
       = Single_view (Some {| result_text := tip;
                              panel_markup := format_analysis_result tip |})
                     false
    /\ truthy (format_analysis_result tip) = true.
Proof.
  intros Hkind Hresume Hjob Hfailed.
  destruct (guidance_kinds analysis_type Hkind)
    as (tip & entry & Htip & Hentry & Hsingle & Hselected & Hshown & Hretry).
  exists tip. split; [exact Htip|]. split; [|exact Hshown].
  unfold results_page. rewrite Hresume, Hjob, Hselected, Hsingle. cbn [negb].
  rewrite (single_analysis_failed groq_api_key backend analysis_type
             resume_text job_description w entry Hentry).
  - rewrite Htip. cbn [get_default]. rewrite Hretry. reflexivity.
  - apply Hfailed.
    rewrite (built_prompts_single analysis_type resume_text job_description
               entry Hsingle Hentry).
    left. reflexivity.
Qed.

Lemma failure_maps_to_guidance_witness :
  exists tip,
    dict_get provide_manual_analysis_tips (py "Issues Analysis") = Some tip
    /\ fst (results_page (Some (py "gsk_key")) backend_down (py "My resume")
              (py "Data Analyst") (py "Issues Analysis") fresh_world)
       = Single_view (Some {| result_text := tip;
                              panel_markup := format_analysis_result tip |})
                     false
    /\ truthy (format_analysis_result tip) = true.
Proof.
  apply (failure_maps_to_guidance (Some (py "gsk_key")) backend_down
           (py "Issues Analysis") (py "My resume") (py "Data Analyst")
           fresh_world).
  - vm_compute. tauto.
  - reflexivity.
  - reflexivity.
  - intros p _.
    apply (analyze_exhausted (Some (py "gsk_key")) backend_down p 3
             fresh_world eq_refl eq_refl backend_down_fails).
    lia.
Defined.

(** C2 fails as stated.  The library has four texts, none for Complete
    Analysis; and on the Complete Analysis branch a failed call is not
    replaced: the four panels show [API_FAILED] and the report data holds
    it. *)
Lemma complete_analysis_shows_failure :
  List.length provide_manual_analysis_tips = 4
  /\ dict_get provide_manual_analysis_tips COMPLETE_ANALYSIS = None
  /\ fst (results_page (Some (py "gsk_key")) backend_down (py "My resume")
            (py "Data Analyst") COMPLETE_ANALYSIS fresh_world)
     = Complete_view
         [(py "Quick Overview", API_FAILED); (py "Issues Analysis", API_FAILED);
          (py "Enhancement Tips", API_FAILED); (py "Job Matching", API_FAILED)]
         (repeat {| result_text := API_FAILED; panel_markup := API_FAILED |} 4).
Proof.
  split; [reflexivity|]. split; vm_compute; reflexivity.
Qed.

(* ================================================================== *)
(** * Properties of the document extractor *)
(* ================================================================== *)

(** A joined text is empty only when there is at most one piece and it is
    empty. *)
Lemma join_blank_line_nonempty (l : list pystr) :
  join BLANK_LINE l <> [] <->
  (exists t, In t l /\ t <> []) \/ 2 <= List.length l.
Proof.
  destruct l as [|p [|q l]].
  - cbn. split.
    + intros H. contradiction.
    + intros [(t & [] & _)|H]; lia.
  - cbn. split.
    + intros H. left. exists p. split; [left; reflexivity|exact H].
    + intros [(t & [<-|[]] & Ht)|H]; [exact Ht|lia].
  - split.
    + intros _. right. cbn. lia.
    + intros _. cbn [join]. unfold BLANK_LINE.
      destruct p; discriminate.
Qed.

Section ExtractorFacts.

Variable image : Type.
Variable page : Type.
Variable HAS_POPPLER HAS_TESSERACT : bool.
Variable pdf2image_imported pytesseract_imported : bool.
Variable convert_from_bytes :
  list N -> Z -> option (nat * nat) -> outcome (list image).
Variable image_to_string : image -> outcome pystr.
Variable pdfplumber_open : list N -> outcome (list page).
Variable extract_text : page -> outcome (option pystr).

Let USE := USE_PDF2IMAGE HAS_POPPLER HAS_TESSERACT pdf2image_imported.
Let ocr := ocr_route image pytesseract_imported convert_from_bytes
             image_to_string.
Let text := text_route image page HAS_POPPLER pdf2image_imported
              convert_from_bytes pdfplumber_open extract_text.
Let run := process_pdf image page HAS_POPPLER HAS_TESSERACT
             pdf2image_imported pytesseract_imported convert_from_bytes
             image_to_string pdfplumber_open extract_text.
Let start := text_layer_start image HAS_POPPLER HAS_TESSERACT
               pdf2image_imported pytesseract_imported convert_from_bytes
               image_to_string.
Let extract := extract_from image page HAS_POPPLER HAS_TESSERACT
                 pdf2image_imported pytesseract_imported convert_from_bytes
                 image_to_string pdfplumber_open extract_text.
Let failure := total_failure image page HAS_POPPLER HAS_TESSERACT
                 pdf2image_imported pytesseract_imported convert_from_bytes
                 image_to_string pdfplumber_open extract_text.
Let texts_of := page_texts page extract_text.

Lemma preview_page_text_bits (bytes_data : list N) (i : nat)
    (b : buffers image) :
  text_bits (preview_page image pdf2image_imported convert_from_bytes
               bytes_data i b) = text_bits b.
Proof.
  unfold preview_page. destruct pdf2image_imported; [|reflexivity].
  destruct (convert_from_bytes bytes_data 150 (Some (S i, S i)))
    as [[|img imgs]|e]; reflexivity.
Qed.

(** The page loop fails where [page_texts] fails, and otherwise appends
    the page texts to the ones it was given. *)
Lemma text_pages_spec (bytes_data : list N) (pages : list page) :
  forall (i : nat) (b : buffers image),
    let r := text_pages image page HAS_POPPLER pdf2image_imported
               convert_from_bytes extract_text bytes_data i pages b in
    match texts_of pages with
    | Returned ts => fst r = Returned tt /\ text_bits (snd r) = text_bits b ++ ts
    | Raised e => fst r = Raised e
    end.
Proof.
  induction pages as [|pg rest IH]; intros i b; cbv zeta.
  - cbn. rewrite app_nil_r. split; reflexivity.
  - unfold texts_of. cbn [text_pages page_texts].
    destruct (extract_text pg) as [t|e]; [|reflexivity].
    cbn [obind].
    match goal with |- context [text_pages _ _ _ _ _ _ _ (S i) rest ?b'] =>
      specialize (IH (S i) b'); cbv zeta in IH;
      assert (Hbits : text_bits b' = text_bits b ++ [page_text t])
    end.
    { destruct (HAS_POPPLER && (i <? 2)); [|reflexivity].
      apply preview_page_text_bits. }
    unfold texts_of in IH.
    destruct (page_texts page extract_text rest) as [ts|e]; cbn [obind].
    + destruct IH as (H1 & H2). split; [exact H1|].
      rewrite H2, Hbits, <- app_assoc. reflexivity.
    + exact IH.
Qed.

(** The text-layer path, by the way its route ends. *)
Lemma text_layer_path_cases (bytes_data : list N) (b : buffers image)
    (w : world) :
  text_layer_path image page HAS_POPPLER pdf2image_imported
    convert_from_bytes pdfplumber_open extract_text bytes_data b w
  = match fst (text bytes_data b) with
    | Returned _ =>
        (Returned (join BLANK_LINE (text_bits (snd (text bytes_data b))),
                   preview (snd (text bytes_data b))), w)
    | Raised e =>
        (Returned ([], []),
         {| w_session := w_session w;
            w_trace := w_trace w ++ [extraction_error e] |})
    end.
Proof.
  unfold text_layer_path, try_except, bind, ret, route_result, emit.
  fold text. destruct (fst (text bytes_data b)); reflexivity.
Qed.

(** The extraction proper, by the path taken. *)
Lemma extract_from_cases (bytes_data : list N) (w : world) :
  extract bytes_data w
  = match start bytes_data with
    | None =>
        let r := ocr bytes_data (Build_buffers [] []) in
        (Returned (join BLANK_LINE (text_bits (snd r)), preview (snd r)), w)
    | Some b =>
        let w1 :=
          if USE then
            match fst (ocr bytes_data (Build_buffers [] [])) with
            | Raised e =>
                {| w_session := w_session w;
                   w_trace := w_trace w ++ [ocr_warning e] |}
            | Returned _ => w
            end
          else w in
        text_layer_path image page HAS_POPPLER pdf2image_imported
          convert_from_bytes pdfplumber_open extract_text bytes_data b w1
    end.
Proof.
  unfold extract, extract_from, start, text_layer_start.
  fold USE. destruct USE; [|reflexivity].
  fold ocr. unfold try_except, bind, ret, route_result, emit.
  destruct (ocr bytes_data (Build_buffers [] [])) as [[[]|e] b];
    reflexivity.
Qed.

(** [process_pdf] on a PDF upload whose bytes can be read. *)
Lemma process_pdf_cases (f : uploaded_file) (w : world) (type : pystr)
    (bytes_data : list N) :
  file_type f = Returned type ->
  pystr_eqb type PDF_MIME = true ->
  file_value f = Returned bytes_data ->
  run (Some f) w = extract bytes_data w.
Proof.
  intros Htype Hpdf Hvalue. unfold run, process_pdf.
  rewrite Htype, Hpdf, Hvalue. reflexivity.
Qed.

(** [process_pdf] raises what a read of the upload raises, and changes
    nothing then. *)
Lemma process_pdf_unreadable (uploaded : option uploaded_file) (w : world) :
  readable uploaded = false ->
  exists e, run uploaded w = (Raised e, w).
Proof.
  unfold readable, run, process_pdf. intros Hread.
  destruct uploaded as [f|]; [|discriminate Hread].
  destruct (file_type f) as [type|e]; [|exists e; reflexivity].
  destruct (pystr_eqb type PDF_MIME); [|discriminate Hread].
  destruct (file_value f) as [bytes_data|e]; [discriminate Hread|].
  exists e. reflexivity.
Qed.

Lemma page_texts_length (pages : list page) (texts : list pystr) :
  texts_of pages = Returned texts -> List.length texts = List.length pages.
Proof.
  revert texts. induction pages as [|pg rest IH]; intros texts H.
  - injection H as <-. reflexivity.
  - unfold texts_of in H. cbn [page_texts] in H.
    destruct (extract_text pg) as [t|e]; [|discriminate H].
    cbn [obind] in H. fold (texts_of rest) in H.
    destruct (texts_of rest) as [ts|e]; [|discriminate H].
    injection H as <-. cbn [List.length]. f_equal. apply IH. reflexivity.
Qed.

(** C4 (as the code has it): when the reads of the upload return,
    [process_pdf] returns, for every behaviour of the libraries.  When both
    paths fail (the OCR route is not available or raised, and the
    text-layer route raised [e]) it returns the empty text with no preview
    and its last message is the error
    "Could not extract anything from this PDF: e"; in every other case it
    writes no error message at all. *)
Theorem process_pdf_never_raises (uploaded : option uploaded_file)
    (w : world) :
  readable uploaded = true ->
  exists doc warnings,
    fst (run uploaded w) = Returned doc
    /\ Forall (fun ev => is_error ev = false) warnings
    /\ match failure uploaded with
       | Some e =>
           doc = ([], [])
           /\ w_trace (snd (run uploaded w))
              = w_trace w ++ warnings ++ [extraction_error e]
       | None => w_trace (snd (run uploaded w)) = w_trace w ++ warnings
       end.
Proof.
  intros Hread. destruct uploaded as [f|].
  2:{ exists ([], []), []. cbn. rewrite app_nil_r. repeat split. constructor. }
  unfold readable in Hread.
  destruct (file_type f) as [type|e0] eqn:Htype; [|discriminate Hread].
  destruct (pystr_eqb type PDF_MIME) eqn:Hpdf.
  2:{ exists ([], []), []. unfold failure, total_failure, run, process_pdf.
      rewrite Htype, Hpdf.
      destruct (file_value f); cbn; rewrite app_nil_r; repeat split;
        constructor. }
  destruct (file_value f) as [bytes_data|e0] eqn:Hvalue; [|discriminate Hread].
  rewrite (process_pdf_cases f w type bytes_data Htype Hpdf Hvalue).
  rewrite extract_from_cases.
  unfold failure, total_failure. rewrite Htype, Hvalue, Hpdf. fold start.
  destruct (start bytes_data) as [b|] eqn:Hstart.
  2:{ eexists. exists []. cbn [fst snd]. rewrite app_nil_r.
      repeat split. constructor. }
  cbv zeta. rewrite text_layer_path_cases. fold text.
  set (w1 := if USE then _ else w).
  assert (Hw1 : exists warnings,
             Forall (fun ev => is_error ev = false) warnings
             /\ w_trace w1 = w_trace w ++ warnings).
  { subst w1. destruct USE.
    - destruct (fst (ocr bytes_data (Build_buffers [] []))) as [u|e].
      + exists []. rewrite app_nil_r. split; [constructor|reflexivity].
      + exists [ocr_warning e]. split; [|reflexivity].
        constructor; [reflexivity|constructor].
    - exists []. rewrite app_nil_r. split; [constructor|reflexivity]. }
  destruct Hw1 as (warnings & Hclean & Htrace).
  destruct (fst (text bytes_data b)) as [u|e].
  - eexists. exists warnings. cbn [fst snd]. repeat split; assumption.
  - exists ([], []), warnings. cbn [fst snd w_trace].
    rewrite Htrace, <- app_assoc. repeat split. assumption.
Qed.

(** What the text-layer path returns when it is entered with no page text
    left over from the OCR route: the page texts joined by a blank line.
    The separator alone makes the text of a document of two or more pages
    non-empty. *)
Lemma text_layer_path_text (f : uploaded_file) (w : world)
    (type : pystr) (bytes_data : list N)
    (b : buffers image) (pages : list page) (texts : list pystr) :
  file_type f = Returned type ->
  pystr_eqb type PDF_MIME = true ->
  file_value f = Returned bytes_data ->
  start bytes_data = Some b ->
  text_bits b = [] ->
  pdfplumber_open bytes_data = Returned pages ->
  texts_of pages = Returned texts ->
  exists previews,
    fst (run (Some f) w) = Returned (join BLANK_LINE texts, previews)
    /\ List.length texts = List.length pages
    /\ (join BLANK_LINE texts <> [] <->
        (exists t, In t texts /\ t <> []) \/ 2 <= List.length pages).
Proof.
  intros Htype Hpdf Hvalue Hstart Hempty Hopen Htexts.
  rewrite (process_pdf_cases f w type bytes_data Htype Hpdf Hvalue).
  rewrite extract_from_cases, Hstart. cbv zeta.
  rewrite text_layer_path_cases. unfold text, text_route. rewrite Hopen.
  pose proof (text_pages_spec bytes_data pages 0 b) as Hspec.
  cbv zeta in Hspec. rewrite Htexts in Hspec. destruct Hspec as (Hok & Hbits).
  rewrite Hok, Hbits, Hempty. cbn [app fst].
  eexists. split; [reflexivity|].
  pose proof (page_texts_length pages texts Htexts) as Hlen.
  split; [exact Hlen|]. rewrite <- Hlen. apply join_blank_line_nonempty.
Qed.

End ExtractorFacts.

Lemma process_pdf_never_raises_witness :
  exists doc warnings,
    fst (process_pdf unit (option pystr) true true true true
           (fun _ _ _ => Raised (LibraryError (py "Unable to get page count")))
           (fun _ => Returned (py "unused"))
           (fun _ => Raised (LibraryError (py "No /Root object")))
           (fun pg => Returned pg)
           (Some blank_pdf) fresh_world)
    = Returned doc
    /\ Forall (fun ev => is_error ev = false) warnings
    /\ match
         total_failure unit (option pystr) true true true true
           (fun _ _ _ => Raised (LibraryError (py "Unable to get page count")))
           (fun _ => Returned (py "unused"))
           (fun _ => Raised (LibraryError (py "No /Root object")))
           (fun pg => Returned pg)
           (Some blank_pdf)
       with
       | Some e =>
           doc = ([], [])
           /\ w_trace
                (snd (process_pdf unit (option pystr) true true true true
                        (fun _ _ _ =>
                           Raised (LibraryError (py "Unable to get page count")))
                        (fun _ => Returned (py "unused"))
                        (fun _ => Raised (LibraryError (py "No /Root object")))
                        (fun pg => Returned pg)
                        (Some blank_pdf) fresh_world))
              = w_trace fresh_world ++ warnings ++ [extraction_error e]
       | None =>
           w_trace
             (snd (process_pdf unit (option pystr) true true true true
                     (fun _ _ _ =>
                        Raised (LibraryError (py "Unable to get page count")))
                     (fun _ => Returned (py "unused"))
                     (fun _ => Raised (LibraryError (py "No /Root object")))
                     (fun pg => Returned pg)
                     (Some blank_pdf) fresh_world))
           = w_trace fresh_world ++ warnings
       end.
Proof.
  exact (process_pdf_never_raises unit (option pystr) true true true true
           (fun _ _ _ => Raised (LibraryError (py "Unable to get page count")))
           (fun _ => Returned (py "unused"))
           (fun _ => Raised (LibraryError (py "No /Root object")))
           (fun pg => Returned pg)
           (Some blank_pdf) fresh_world eq_refl).
Defined.

(** Both paths fail: the answer is the empty document, after the OCR
    warning and the extraction error. *)
Example total_failure_run :
  process_pdf unit (option pystr) true true true true
    (fun _ _ _ => Raised (LibraryError (py "Unable to get page count")))
    (fun _ => Returned (py "unused"))
    (fun _ => Raised (LibraryError (py "No /Root object")))
    (fun pg => Returned pg)
    (Some blank_pdf) fresh_world
  = (Returned ([], []),
     {| w_session := fresh_session;
        w_trace :=
          [ocr_warning (LibraryError (py "Unable to get page count"));
           extraction_error (LibraryError (py "No /Root object"))] |}).
Proof. reflexivity. Qed.

(** The two routes fill the same lists: when the OCR route raises on the
    second page, the text it read from the first page stays in front of the
    text-layer pages, and its two previews stay too. *)
Example ocr_leftover_is_kept :
  fst (process_pdf nat (option pystr) true true true true
         (fun _ _ pages =>
            match pages with
            | None => Returned [1; 2]
            | Some (first, _) => Returned [10 + first]
            end)
         (fun img => if img =? 1 then Returned (py "scanned")
                     else Raised (LibraryError (py "tesseract timeout")))
         (fun _ => Returned [Some (py "first"); Some (py "second")])
         (fun pg => Returned pg)
         (Some blank_pdf) fresh_world)
  = Returned (py "scanned

first

second", [1; 2; 11; 12]).
Proof. reflexivity. Qed.

(** C4 fails as stated: the bytes of an upload are read before the first
    [try] (line 315).  On a PDF upload that is closed the read raises
    [ValueError], and so does [process_pdf]: no document is returned. *)
Lemma closed_upload_raises :
  readable (Some closed_pdf) = false
  /\ process_closed_pdf fresh_world
     = (Raised (ValueError (py "I/O operation on closed file.")), fresh_world)
  /\ forall doc, fst (process_closed_pdf fresh_world) <> Returned doc.
Proof.
  split; [reflexivity|]. split; [reflexivity|].
  intros doc H. discriminate H.
Qed.

(** C1, at the failing input: a document of two pages, neither with any
    text, read on the text-layer path.  No page has non-empty text, yet
    [process_pdf] returns the blank line that joins the two empty page
    texts and writes no message: a text that is not empty, which the test
    [if resume_text:] of the caller (line 578) takes for a resume.  The
    same document with one page gives the empty text. *)
Theorem blank_pages_give_nonempty_text :
  Forall (fun pg => page_text pg = []) [None; None]
  /\ process_blank_pdf fresh_world = (Returned ([LF; LF], []), fresh_world)
  /\ [LF; LF] <> []
  /\ truthy [LF; LF] = true
  /\ process_blank_page fresh_world = (Returned ([], []), fresh_world).
Proof.
  split; [repeat constructor|]. split; [vm_compute; reflexivity|].
  split; [discriminate|]. split; reflexivity.
Qed.

(* ================================================================== *)
(** * Properties of the report generator *)
(* ================================================================== *)

Section ReportFacts.

Variable unicode_isdigit : N -> bool.
Variable markup_error : pystr -> style -> option exn.
Variable doc_build : list flowable -> outcome (list N).

Let report := generate_enhanced_pdf_report unicode_isdigit markup_error
                doc_build.

(** The guarded part: once the elements are laid out, a failure of
    [doc.build] gives the empty byte string and an error message. *)
Lemma report_build_guarded (report_data : list (pystr * pystr))
    (elements : list flowable) (w : world) :
  obind (new_paragraph markup_error (py "📄 Resume Analysis Report") title_style)
    (fun title =>
       report_sections unicode_isdigit markup_error report_data
         [title; Spacer 1 20])
  = Returned elements ->
  report report_data w
  = match doc_build elements with
    | Returned pdf_bytes => (Returned pdf_bytes, w)
    | Raised e =>
        (Returned [],
         {| w_session := w_session w;
            w_trace := w_trace w
              ++ [St Error (py "Error generating PDF report: " ++ str_exn e)] |})
    end.
Proof.
  intros Hlayout. unfold report, generate_enhanced_pdf_report.
  rewrite Hlayout. unfold try_except, bind, ret, st_error, emit.
  destruct (doc_build elements); reflexivity.
Qed.

(** C3, at the failing input: for the report data
    [{"Quick Overview": "5"}] the call raises, whatever reportlab does.
    When reportlab accepts the title and the heading, the exception is the
    [IndexError] of [clean_line[1]] on line 460, which is outside the
    [try] of lines 466-473. *)
Theorem report_single_digit_line_raises (w : world) :
  fst (report [(py "Quick Overview", py "5")] w)
  = Raised
      match markup_error (py "📄 Resume Analysis Report") title_style with
      | Some e => e
      | None =>
          match markup_error (py "📋 " ++ py "Quick Overview") heading_style with
          | Some e => e
          | None => IndexError (py "string index out of range")
          end
      end.
Proof.
  unfold report, generate_enhanced_pdf_report, new_paragraph.
  destruct (markup_error (py "📄 Resume Analysis Report") title_style);
    [reflexivity|].
  cbn [obind report_sections].
  change (truthy (py "5") && truthy (strip (py "5"))) with true.
  cbv beta iota. unfold new_paragraph.
  destruct (markup_error (py "📋 " ++ py "Quick Overview") heading_style);
    reflexivity.
Qed.

End ReportFacts.

Example report_two_points :
  fst (generate_enhanced_pdf_report (fun _ => false) (fun _ _ => None)
         (fun elements => Returned (map (fun _ => 0%N) elements))
         [(py "Quick Overview", py "Point one.
Point two.")] fresh_world)
  = Returned [0; 0; 0; 0; 0; 0]%N.
Proof. reflexivity. Qed.

(* ================================================================== *)
(** * Properties of the result formatter *)
(* ================================================================== *)

Lemma already_clean_spec (x : pystr) :
  already_clean x = true <-> forall m, In m MARKERS -> contains m x = false.
Proof.
  unfold already_clean. rewrite forallb_forall. split; intros H m Hm.
  - apply negb_true_iff. apply H. exact Hm.
  - apply negb_true_iff. apply H. exact Hm.
Qed.

Lemma markers_nonempty (m : pystr) : In m MARKERS -> m <> [].
Proof.
  intros Hm. cbn in Hm.
  destruct Hm as [<-|[<-|[<-|[<-|[<-|[]]]]]]; discriminate.
Qed.

Lemma markers_disjoint_br (m : pystr) : In m MARKERS -> disjoint m BR = true.
Proof.
  intros Hm. cbn in Hm.
  destruct Hm as [<-|[<-|[<-|[<-|[<-|[]]]]]]; reflexivity.
Qed.

(** On a clean text the six [replace] calls change nothing. *)
Lemma strip_markers_clean (x : pystr) :
  already_clean x = true -> strip_markers x = x.
Proof.
  intros H. rewrite already_clean_spec in H.
  assert (Hrep : forall m, In m MARKERS -> replace m [] x = x).
  { intros m Hm. apply replace_absent; [apply markers_nonempty|apply H]; exact Hm. }
  unfold strip_markers. rewrite replace_empty_by_empty.
  rewrite (Hrep (py "*")) by (cbn; tauto).
  rewrite (Hrep (py "+")) by (cbn; tauto).
  rewrite (Hrep [BULLET]) by (cbn; tauto).
  rewrite (Hrep (py "*")) by (cbn; tauto).
  rewrite (Hrep TAG_STRENGTH) by (cbn; tauto).
  apply Hrep. cbn. tauto.
Qed.

(** A line of a section, stripped, when something is left of it. *)
Lemma stripped_line_item (section line : pystr) :
  In line (split [LF] section) ->
  strip line <> [] ->
  visible_ends (strip line) /\ infix (strip line) section
  /\ plain_first_line (strip line).
Proof.
  intros Hline Hleft.
  assert (Hsep : [LF] <> []) by discriminate.
  assert (Hin : infix (strip line) section).
  { apply (infix_trans _ line); [apply strip_infix|].
    apply (split_piece_infix [LF] section line Hsep Hline). }
  split; [|split].
  - split; [exact Hleft|]. split; [apply strip_headok|apply strip_rev_headok].
  - exact Hin.
  - intros a b Hab _. exfalso.
    pose proof (split_piece_absent [LF] section line Hsep Hline) as Hno.
    apply (absent_infix [LF] (strip line) line (strip_infix line)) in Hno.
    apply absent_char in Hno. apply Hno. rewrite Hab.
    apply in_or_app. right. left. reflexivity.
Qed.

(** What one section contributes: pieces of it with visible ends, and with a
    plain first line. *)
Lemma format_section_items (section item : pystr) :
  In item (format_section section) ->
  visible_ends item /\ infix item section /\ plain_first_line item.
Proof.
  unfold format_section.
  destruct (truthy (strip section)) eqn:Hleft; cbn [negb]; [|contradiction].
  assert (Hne : strip section <> []).
  { intros E. rewrite E in Hleft. discriminate Hleft. }
  destruct (split [LF] (strip section)) as [|line0 rest] eqn:Hsplit;
    [contradiction|].
  change (py ":") with [58%N].
  destruct (endswith [58%N] (strip line0)) eqn:Hend.
  - intros Hitem.
    assert (Hlines : exists line,
               In line (split [LF] (strip section))
               /\ item = strip line /\ strip line <> []).
    { destruct Hitem as [<-|Hitem].
      - exists line0. rewrite Hsplit. split; [left; reflexivity|].
        split; [reflexivity|]. intros E. rewrite E in Hend. discriminate Hend.
      - apply filter_In in Hitem as (Hitem & Htruthy).
        apply in_map_iff in Hitem as (line & <- & Hline).
        exists line. rewrite Hsplit. split; [right; exact Hline|].
        split; [reflexivity|]. intros E. rewrite E in Htruthy.
        discriminate Htruthy. }
    destruct Hlines as (line & Hline & -> & Hstripped).
    destruct (stripped_line_item (strip section) line Hline Hstripped)
      as (H1 & H2 & H3).
    split; [exact H1|]. split; [|exact H3].
    apply (infix_trans _ (strip section)); [exact H2|apply strip_infix].
  - intros [<-|[]]. split; [|split].
    + split; [exact Hne|]. split; [apply strip_headok|apply strip_rev_headok].
    + apply strip_infix.
    + intros a b Hab Ha.
      rewrite Hab, (split_char_first LF a b Ha) in Hsplit.
      injection Hsplit as <- _.
      rewrite endswith_strip in Hend.
      assert (Hvis : forallb isspace a = false).
      { pose proof (strip_headok section) as Hhead. rewrite Hab in Hhead.
        destruct a as [|c a]; [discriminate Hhead|].
        cbn [app headok] in Hhead. cbn [forallb].
        apply negb_true_iff in Hhead. rewrite Hhead. reflexivity. }
      destruct (lastvis_visible a Hvis) as (d & Hd).
      exists d. split; [exact Hd|]. rewrite Hd in Hend.
      intros ->. discriminate Hend.
Qed.

Lemma format_section_nil (section : pystr) :
  format_section section = [] -> strip section = [].
Proof.
  unfold format_section.
  destruct (strip section) as [|c s] eqn:Hs; [reflexivity|].
  cbn [truthy negb].
  destruct (split [LF] (c :: s)) as [|line0 rest] eqn:Hsplit.
  - exfalso. exact (split_from_nonempty [LF] (c :: s) 0 Hsplit).
  - destruct (endswith (py ":") (strip line0)); discriminate.
Qed.

(** A text with something visible gives at least one item. *)
Lemma format_items_nonempty (sep content : pystr) :
  sep <> [] -> forallb isspace sep = true ->
  strip content <> [] ->
  flat_map format_section (split sep content) <> [].
Proof.
  intros Hsep Hspace Hvisible Hnone. apply Hvisible.
  apply strip_nil_iff. rewrite <- (join_split sep content Hsep).
  apply join_allspace; [exact Hspace|].
  apply Forall_forall. intros section Hsection.
  apply strip_nil_iff, format_section_nil.
  destruct (format_section section) as [|item items] eqn:Hitems;
    [reflexivity|].
  exfalso. assert (Hin : In item (flat_map format_section (split sep content))).
  { apply in_flat_map. exists section. split; [exact Hsection|].
    rewrite Hitems. left. reflexivity. }
  rewrite Hnone in Hin. exact Hin.
Qed.

(** The texts [format_analysis_result] leaves as they are. *)
Lemma format_fixed (y : pystr) :
  visible_ends y ->
  already_clean y = true ->
  contains FOUR_NEWLINES y = false ->
  plain_first_line y ->
  format_analysis_result y = y.
Proof.
  intros (Hne & Hhead & Hlast) Hclean Hfour Hplain.
  unfold format_analysis_result.
  replace (truthy y) with true by (destruct y; [contradiction|reflexivity]).
  cbn [negb]. rewrite (strip_markers_clean y Hclean), (split_absent _ _ Hfour).
  cbn [flat_map]. rewrite app_nil_r.
  assert (Hsection : format_section y = [y]).
  { unfold format_section. rewrite (strip_id y Hhead Hlast).
    replace (truthy y) with true by (destruct y; [contradiction|reflexivity]).
    cbn [negb]. change (py ":") with [58%N].
    destruct (in_dec N.eq_dec LF y) as [Hin|Hnot].
    - destruct (first_occurrence LF y Hin) as (a & b & Hab & Ha).
      rewrite Hab at 1. rewrite (split_char_first LF a b Ha).
      rewrite endswith_strip.
      destruct (Hplain a b Hab Ha) as (d & -> & Hcolon).
      replace (58 =? d)%N with false; [reflexivity|].
      symmetry. apply N.eqb_neq. intros E. apply Hcolon. symmetry. exact E.
    - apply absent_char in Hnot. rewrite (split_absent _ _ Hnot).
      rewrite (strip_id y Hhead Hlast).
      destruct (endswith [58%N] y); reflexivity. }
  rewrite Hsection. reflexivity.
Qed.

(** The markup of a clean text with something visible is left as it is by a
    second pass. *)
Lemma format_output_fixed (x : pystr) :
  already_clean x = true ->
  strip x <> [] ->
  format_analysis_result (format_analysis_result x) = format_analysis_result x.
Proof.
  intros Hclean Hvisible.
  assert (Hx : truthy x = true).
  { destruct x; [exfalso; apply Hvisible; reflexivity|reflexivity]. }
  unfold format_analysis_result at 2 3. rewrite Hx. cbn [negb].
  rewrite (strip_markers_clean x Hclean).
  assert (Hfour : FOUR_NEWLINES <> []) by discriminate.
  assert (Hbr : BR <> []) by discriminate.
  set (items := flat_map format_section (split FOUR_NEWLINES x)).
  assert (Hitems : forall item, In item items ->
            exists section, In section (split FOUR_NEWLINES x)
              /\ visible_ends item /\ infix item section
              /\ plain_first_line item).
  { intros item Hitem. apply in_flat_map in Hitem as (section & Hsec & Hitem).
    exists section. split; [exact Hsec|].
    apply format_section_items. exact Hitem. }
  apply format_fixed.
  - apply join_visible_ends.
    + apply format_items_nonempty; [exact Hfour|reflexivity|exact Hvisible].
    + apply Forall_forall. intros item Hitem.
      destruct (Hitems item Hitem) as (_ & _ & H & _). exact H.
  - apply already_clean_spec. intros m Hm.
    apply absent_join;
      [apply markers_nonempty; exact Hm | exact Hbr
      | apply markers_disjoint_br; exact Hm |].
    apply Forall_forall. intros item Hitem.
    destruct (Hitems item Hitem) as (section & Hsec & _ & Hin & _).
    apply (absent_infix m item x).
    + apply (infix_trans _ section); [exact Hin|].
      apply (split_piece_infix FOUR_NEWLINES x section Hfour Hsec).
    + rewrite already_clean_spec in Hclean. apply Hclean. exact Hm.
  - apply absent_join; [exact Hfour|exact Hbr|reflexivity|].
    apply Forall_forall. intros item Hitem.
    destruct (Hitems item Hitem) as (section & Hsec & _ & Hin & _).
    apply (absent_infix FOUR_NEWLINES item section Hin).
    apply (split_piece_absent FOUR_NEWLINES x section Hfour Hsec).
  - apply join_plain_first_line.
    + intros Hin. cbn in Hin. unfold LF in Hin.
      repeat (destruct Hin as [Hin|Hin]; [discriminate Hin|]). exact Hin.
    + apply Forall_forall. intros item Hitem.
      destruct (Hitems item Hitem) as (_ & _ & _ & _ & H). exact H.
Qed.

Lemma infix_in (c : N) (a s : pystr) : infix a s -> In c a -> In c s.
Proof.
  intros (l & r & ->) H. apply in_or_app. right. apply in_or_app. left.
  exact H.
Qed.

Lemma replace_from_incl (old : pystr) (s : pystr) :
  forall (skip : nat) (c : N),
    In c (replace_from old [] skip s) -> In c s.
Proof.
  induction s as [|x s IH]; intros skip c H; [exact H|].
  cbn [replace_from] in H. destruct skip as [|skip].
  - destruct (startswith old (x :: s)).
    + right. apply (IH _ c H).
    + destruct H as [H|H]; [left; exact H|right; apply (IH _ c H)].
  - right. apply (IH _ c H).
Qed.

(** Deleting occurrences adds no character. *)
Lemma replace_incl (old s : pystr) (c : N) :
  In c (replace old [] s) -> In c s.
Proof.
  destruct old as [|x old].
  - rewrite replace_empty_by_empty. exact (fun H => H).
  - apply replace_from_incl.
Qed.

(** Deleting a character leaves none of it. *)
Lemma replace_char_removes (g : N) (s : pystr) : ~ In g (replace [g] [] s).
Proof.
  unfold replace. induction s as [|x s IH]; [exact (fun H => H)|].
  cbn [replace_from startswith List.length Nat.sub app].
  destruct (g =? x)%N eqn:Hx; cbn [andb].
  - exact IH.
  - intros [H|H]; [|exact (IH H)].
    apply N.eqb_neq in Hx. apply Hx. symmetry. exact H.
Qed.

(** The six [replace] calls leave no bullet glyph. *)
Lemma strip_markers_no_glyph (x : pystr) (g : N) :
  In g [42%N; 43%N; BULLET] -> ~ In g (strip_markers x).
Proof.
  intros Hg H. unfold strip_markers in H.
  apply replace_incl, replace_incl in H.
  change (py "*") with [42%N] in H. change (py "+") with [43%N] in H.
  destruct Hg as [<-|[<-|[<-|[]]]].
  - exact (replace_char_removes _ _ H).
  - apply replace_incl, replace_incl in H.
    exact (replace_char_removes _ _ H).
  - apply replace_incl in H. exact (replace_char_removes _ _ H).
Qed.

(** What the six [replace] calls leave is clean as soon as it holds no
    tag. *)
Lemma strip_markers_leaves_clean (x : pystr) :
  contains TAG_STRENGTH (strip_markers x) = false ->
  contains TAG_WEAKNESS (strip_markers x) = false ->
  already_clean (strip_markers x) = true.
Proof.
  intros Hstrength Hweakness. apply already_clean_spec. intros m Hm.
  unfold MARKERS in Hm.
  change (py "*") with [42%N] in Hm. change (py "+") with [43%N] in Hm.
  destruct Hm as [<-|[<-|[<-|[<-|[<-|[]]]]]];
    try assumption; apply absent_char; apply strip_markers_no_glyph.
  - left. reflexivity.
  - right. left. reflexivity.
  - right. right. left. reflexivity.
Qed.

(** The markup of a text is the markup of what the six [replace] calls
    leave of it, when that is clean and not empty. *)
Lemma format_of_stripped (x : pystr) :
  already_clean (strip_markers x) = true ->
  strip_markers x <> [] ->
  format_analysis_result x = format_analysis_result (strip_markers x).
Proof.
  intros Hclean Hleft.
  assert (Hx : truthy x = true).
  { destruct x; [exfalso; apply Hleft; reflexivity|reflexivity]. }
  assert (Hy : truthy (strip_markers x) = true).
  { destruct (strip_markers x); [contradiction|reflexivity]. }
  unfold format_analysis_result. rewrite Hx, Hy. cbn [negb].
  rewrite (strip_markers_clean (strip_markers x) Hclean). reflexivity.
Qed.

(** C10 (as the code has it): take any input, with or without tags and
    bullet glyphs.  When the text left by the removal step of the
    formatter (the six [replace] calls) holds no [STRENGTH] or [WEAKNESS]
    tag, and the input is empty or that text has a character other than
    whitespace, formatting the formatted text gives the formatted text
    again. *)
Theorem format_idempotent_on_clean (x : pystr) :
  contains TAG_STRENGTH (strip_markers x) = false ->
  contains TAG_WEAKNESS (strip_markers x) = false ->
  x = [] \/ truthy (strip (strip_markers x)) = true ->
  format_analysis_result (format_analysis_result x) = format_analysis_result x.
Proof.
  intros Hstrength Hweakness [->|Hvisible].
  - vm_compute. reflexivity.
  - pose proof (strip_markers_leaves_clean x Hstrength Hweakness) as Hclean.
    assert (Hleft : strip (strip_markers x) <> []).
    { intros E. rewrite E in Hvisible. discriminate Hvisible. }
    assert (Hsome : strip_markers x <> []).
    { intros E. rewrite E in Hleft. apply Hleft. reflexivity. }
    rewrite (format_of_stripped x Hclean Hsome).
    apply format_output_fixed; assumption.
Qed.

Lemma format_idempotent_on_clean_witness :
  format_analysis_result (format_analysis_result sample_bullets)
  = format_analysis_result sample_bullets.
Proof.
  apply (format_idempotent_on_clean sample_bullets).
  - vm_compute. reflexivity.
  - vm_compute. reflexivity.
  - right. vm_compute. reflexivity.
Defined.

(** The texts the claim calls clean are covered: a text without tag and
    without glyph is left as it is by the removal step. *)
Example format_clean_review :
  already_clean sample_review = true
  /\ format_analysis_result (format_analysis_result sample_review)
     = format_analysis_result sample_review.
Proof. split; vm_compute; reflexivity. Qed.

Example format_sample_bullets :
  format_analysis_result sample_bullets
  = py "Knows C and ab
  Solid profile".
Proof. vm_compute. reflexivity. Qed.

Example format_sample_review :
  format_analysis_result sample_review
  = py "Skills:<br>Python<br>SQL<br>Solid profile
overall".
Proof. vm_compute. reflexivity. Qed.

(** C10 fails as stated.  A single blank has no marker and no bullet glyph,
    and formats to the empty text, which formats to the "no content"
    notice.  A text with a glyph inside a marker inside a marker has no
    marker as it stands and no glyph at either end, and formats to a text
    that still holds a marker, which the second pass removes. *)
Lemma format_not_idempotent :
  let glyphs := [py "*"; py "+"; [BULLET]] in
  let claimed_clean x :=
    negb (contains TAG_STRENGTH x) && negb (contains TAG_WEAKNESS x)
    && forallb (fun g => negb (startswith g x) && negb (endswith g x)) glyphs in
  (claimed_clean (py " ") = true
   /\ format_analysis_result (py " ") = []
   /\ format_analysis_result (format_analysis_result (py " ")) = NO_CONTENT
   /\ format_analysis_result (format_analysis_result (py " "))
      <> format_analysis_result (py " "))
  /\ (claimed_clean (py "[STREN[WEAK*NESS]GTH] ok") = true
      /\ format_analysis_result (py "[STREN[WEAK*NESS]GTH] ok")
         = py "[STRENGTH] ok"
      /\ format_analysis_result
           (format_analysis_result (py "[STREN[WEAK*NESS]GTH] ok")) = py "ok"
      /\ format_analysis_result
           (format_analysis_result (py "[STREN[WEAK*NESS]GTH] ok"))
         <> format_analysis_result (py "[STREN[WEAK*NESS]GTH] ok")).
Proof.
  cbv zeta. split.
  - split; [reflexivity|]. split; [reflexivity|]. split; [reflexivity|].
    intros H. vm_compute in H. discriminate H.
  - split; [reflexivity|]. split; [reflexivity|]. split; [reflexivity|].
    intros H. vm_compute in H. discriminate H.
Qed.
